(* ===== verification/_CoqProject ===== *)
-Q . S2P
Prelude.v
Url.v
PyCore.v
Activity.v
Database.v
App.v
Api.v
Server.v
StoreSpec.v
DictStore.v
