(* ===== verification/Prelude.v ===== *)
(** * Mergington High School activities API: a verification development

    The repository is a FastAPI application ([src/src/app.py]) over one
    SQLAlchemy model ([src/src/models/activity.py]).  Students list the
    extracurricular activities and sign up or unregister by e-mail.  The
    module [models/__init__.py] (engine, [Base], [get_db]) is imported but
    is not part of the sources, so the database session it provides is
    modelled from the spec and from SQLAlchemy's documented behaviour.

    ** How the parts interact

    uvicorn receives a request line, percent-decodes the path and hands
    the request to FastAPI's router, which picks the endpoint function
    from the decorators of [app.py] (or the [/static] mount), extracts
    the path and query parameters and opens a database session through
    [get_db].  The endpoint queries the [activities] table, reads or
    (would) mutate Python objects, and either returns a value that
    FastAPI serialises with status 200 or raises an exception.  FastAPI
    turns an [HTTPException] into a response with its status and
    [{"detail": ...}], and any other exception into a 500.  At startup
    [startup_event] seeds the table through [init_db].

    ** Files, in dependency order

    - [Prelude] (this file): the state-and-exception monad [st] used by
      every component, as instances of stdpp's [MRet]/[MBind]/[MThrow]
      (so handlers are written with [x ← m; k]), the [readonly] and
      [frame] combinators with the hint database [st_inv], the rewrite
      database [st_run], the tactics [st_norm], [run_ok], [solve_st_inv]
      and [decide_by_vm], and generic list operations and lemmas
      ([remove_first], [assoc_lookup], [NoDup_snoc]).
    - [Url] (Module [Url]): CPython's [urllib.parse] as the server and a
      client use it: [unquote] (split at [%], decode the pieces that
      start with two hexadecimal digits), [parse_qsl], [quote],
      [quote_plus] and [urlencode], with the lemmas that the server's
      decoding inverts the client's encoding.
    - [PyCore] (Module [Py]): the fragment of Python's object model the
      handlers rely on: values, a heap of mutable objects (lists, dicts,
      class instances) with explicit identities so that aliasing is
      modelled, the module globals, Python exceptions with CPython's
      messages, and subscripting ([obj[key]]), membership ([x in c]),
      truthiness, [list.append], [list.remove] and global name lookup,
      each with its error behaviour.
    - [Activity] (Module [Model]): the [Activity] class of
      [models/activity.py] (its columns as a record), [to_dict], and the
      keyword constructor [Activity( **kwargs)] ([Activity_new]) with
      [hasattr] over the class's whole namespace ([attr_names]: columns,
      class body, the declarative base, [object] and [type]) and
      [setattr] ([set_attr]).
    - [Database] (Module [Db]): the [activities] table and the
      SQLAlchemy session: [query(...).count()], [.all()],
      [.filter(name == n).first()], [add], [commit] (keys [max + 1],
      [NOT NULL] checks, server default [created_at], rollback on
      failure) and [close]; spec-modelled, since [models/__init__.py]
      is not among the sources.
    - [App] (Module [App]): [app.py] itself: the module body
      ([module_init]: the globals, [initial_activities]), [init_db] with
      its loop body [init_db_add], [startup_event], [get_db], and the
      endpoints [root], [get_activities], [signup_for_activity] and
      [unregister_from_activity], over a [world] made of the Python state
      and the database.
    - [Api] (Module [Api]): FastAPI and Starlette around [app.py]: the
      route table in registration order, path matching, the methods of
      each route exactly as declared (FastAPI adds no [HEAD]), 405 with
      its [Allow] header, the slash redirect, required query parameters
      (422), the exception-to-response mapping, the [StaticFiles] mount
      with [os.path.normpath] ([static_path]), and the step relation
      [reachable] (startup, then any sequence of requests).
    - [Server] (Module [Server]): the server as a client sees it: raw
      request targets split at [?], the path percent-decoded before
      routing and the query parsed with [parse_qsl] ([decode_request]),
      the target a client builds for a signup, and a client that follows
      307 redirects with a bound on its requests ([follow]).
    - [StoreSpec] (Module [Store]): the Activity Store contract of the
      spec (section 4.1) as the type class [ActivityStore] with the laws
      [ActivityStoreLaws], its reference implementation on a [gmap], and
      the simulation theorems a client proves against the interface.
    - [DictStore] (Module [DictStore]): the handler bodies run on the
      in-memory dict store they are written against, as an instance of
      [ActivityStore] that satisfies the laws.

    ** The theorems

    - What the deployed code does (App, Api, Server): [signup_for_activity]
      raises 404 on an unknown name and [TypeError] on every known one
      (the ORM instance is subscripted like a dict);
      [unregister_from_activity] raises [NameError] ([activities] is
      never defined); at the HTTP level a signup answers 500 or 404 and
      an unregister 500 in every reachable state, and no request of any
      kind is ever answered with a handler's success message.
    - Refinement (StoreSpec, DictStore): on the in-memory dict store the
      handler bodies implement the contract; [dict_store_laws]
      discharges the laws and the [signup_simulation] and
      [unregister_simulation] lemmas turn them into refinement
      theorems; signup then unregister restores the Python state; the
      store invariant is kept on every path.
    - Invariants of the server (Api): the step relation [reachable] is
      closed under requests that never change the seeded rows, so in
      every reachable state the names are pairwise distinct, the keys
      are exactly 1..9 (within SQLite's 64-bit range) and
      [GET /activities] lists the nine seed activities.
    - Seeding (App, Database): on an empty table [init_db] turns every
      seed dict into a row with keys 1, 2, ... (for every list of dicts
      with distinct column keys), and it does nothing on a non-empty
      table; a commit inserts the pending objects in order with SQLite's
      consecutive automatic keys.
    - Requests as sent (Server): a client's escaped signup request runs
      the handler with the client's name and e-mail; a name containing
      [/] cannot be reached at all, escaped or not; a client following
      redirects gets a final answer within three requests.
    - HTTP behaviour (Api): [GET /activities] the rows' [to_dict], a
      missing [email] a 422 before any handler runs, a wrong method a
      405 with its [Allow] header ([HEAD] on the [GET] routes included),
      a trailing slash a 307, and every path under [/static/] the
      static mount's answer on the normalised path.

    ** Bounds and fuel

    Every definition of the program is structurally recursive (over
    lists, strings and the request sequence), so no fuel is needed.
    The only fuel is that of the redirect-following client [follow], a
    bound on its requests: three are enough in every reachable state
    ([follow_terminates]) and needed for the empty path
    ([follow_two_not_enough]).  Python integers are unbounded [Z];
    SQLite keys are 64-bit and [auto_key] models the limit
    ([int64_max]); when the largest key already is [int64_max] SQLite
    tries random keys and may fail with [SQLITE_FULL], and the model
    takes the failure; [reachable_keys] shows the app stays far from it,
    and [init_db_seeds] assumes fewer than [int64_max] seed dicts.
    Concrete states are evaluated with [vm_compute].

    ** Not modelled

    The files of [static/] (not in the repository; the static mount is
    parameterised by their list, and symbolic links and permissions are
    not modelled), uvicorn and the ASGI protocol, the database engine
    configuration, timestamps beyond an abstract clock, [onupdate] of
    [updated_at] (no update endpoint), the length limits of
    [String(255)] (SQLite does not check them), CORS and middleware the
    app does not install, the absolute URL Starlette puts in the
    [location] of its slash redirect (modelled as the path; the client of
    [follow] keeps the query, as that URL does), the body a server drops
    for [HEAD], the UTF-8 decoding of percent-decoded bytes (strings are
    byte strings, so only the replacement of invalid UTF-8 is lost), and
    the keyword constructor given a class for [__class__] or a dict for
    [__dict__] (an instance here has no instance dictionary; the app
    passes only strings).  These parts are I/O glue or server
    configuration, or inputs the app never produces: none of them
    decides which handler runs or what it answers.
*)

From stdpp Require Export base list strings gmap options.
From Stdlib Require Export ZArith.

(** ** The state-and-exception monad *)

(** A computation over a state [S] that may raise an exception [E].
    Python keeps the effects performed before an exception, so the
    state is returned in both cases. *)
Inductive outcome (E A : Type) : Type :=
  | Ok (a : A)
  | Exc (e : E).
Arguments Ok {E A} a.
Arguments Exc {E A} e.

Definition st (S E A : Type) : Type := S → outcome E A * S.

Definition st_ret {S E A} (a : A) : st S E A := λ s, (Ok a, s).

Definition st_bind {S E A B} (k : A → st S E B) (m : st S E A) : st S E B :=
  λ s, match m s with
       | (Ok a, s') => k a s'
       | (Exc e, s') => (Exc e, s')
       end.

Definition st_throw {S E A} (e : E) : st S E A := λ s, (Exc e, s).

#[export] Instance st_mret S E : MRet (st S E) := @st_ret S E.
#[export] Instance st_mbind S E : MBind (st S E) := @st_bind S E.
#[export] Instance st_mthrow S E : MThrow E (st S E) := @st_throw S E.

Definition st_gets {S E A} (f : S → A) : st S E A := λ s, (Ok (f s), s).
Definition st_modify {S E} (f : S → S) : st S E unit := λ s, (Ok tt, f s).

(** [try m except e: h e]: run the handler on an exception. *)
Definition st_catch {S E A} (m : st S E A) (h : E → st S E A) : st S E A :=
  λ s, match m s with
       | (Ok a, s') => (Ok a, s')
       | (Exc e, s') => h e s'
       end.

(** Run a computation on a part [T] of a larger state [S]. *)
Definition zoom {S T E A} (proj : S → T) (upd : T → S → S) (m : st T E A)
  : st S E A :=
  λ s, let '(r, t) := m (proj s) in (r, upd t s).

(** Loop over a list, as a Python [for] statement. *)
Fixpoint st_iter {S E A} (f : A → st S E unit) (l : list A) : st S E unit :=
  match l with
  | [] => mret tt
  | x :: l' => _ ← f x; st_iter f l'
  end.

(** ** Running computations *)

Section Run.
Context {S E : Type}.

Lemma run_ret {A} (a : A) (s : S) : (mret a : st S E A) s = (Ok a, s).
Proof. reflexivity. Qed.

Lemma run_bind {A B} (m : st S E A) (k : A → st S E B) s :
  (x ← m; k x) s =
  match m s with (Ok a, s') => k a s' | (Exc e, s') => (Exc e, s') end.
Proof. reflexivity. Qed.

Lemma run_throw {A} (e : E) (s : S) : (mthrow e : st S E A) s = (Exc e, s).
Proof. reflexivity. Qed.

Lemma run_gets {A} (f : S → A) s : (st_gets f : st S E A) s = (Ok (f s), s).
Proof. reflexivity. Qed.

Lemma run_modify (f : S → S) s : (st_modify f : st S E unit) s = (Ok tt, f s).
Proof. reflexivity. Qed.

Lemma run_bind_ok {A B} (m : st S E A) (k : A → st S E B) s a s' :
  m s = (Ok a, s') → (x ← m; k x) s = k a s'.
Proof. intros H. by rewrite run_bind, H. Qed.

Lemma run_bind_exc {A B} (m : st S E A) (k : A → st S E B) s e s' :
  m s = (Exc e, s') → (x ← m; k x) s = (Exc e, s').
Proof. intros H. by rewrite run_bind, H. Qed.

Lemma st_bind_ret_l {A B} (a : A) (k : A → st S E B) :
  (x ← mret a; k x) = k a.
Proof. reflexivity. Qed.

Lemma st_bind_assoc {A B C} (m : st S E A) (k : A → st S E B)
      (k' : B → st S E C) s :
  (y ← (x ← m; k x); k' y) s = (x ← m; y ← k x; k' y) s.
Proof. rewrite !run_bind. by destruct (m s) as [[a|e] s']. Qed.
End Run.

Create Rewrite HintDb st_run.
#[export] Hint Rewrite @run_ret @run_throw @run_gets @run_modify : st_run.

(** ** Invariants of computations *)

(** [m] never changes the state. *)
Definition readonly {S E A} (m : st S E A) : Prop := ∀ s, (m s).2 = s.

Section Readonly.
Context {S E : Type}.

Lemma readonly_ret {A} (a : A) : readonly (mret a : st S E A).
Proof. by intros s. Qed.

Lemma readonly_throw {A} (e : E) : readonly (mthrow e : st S E A).
Proof. by intros s. Qed.

Lemma readonly_gets {A} (f : S → A) : readonly (st_gets f : st S E A).
Proof. by intros s. Qed.

Lemma readonly_bind {A B} (m : st S E A) (k : A → st S E B) :
  readonly m → (∀ a, readonly (k a)) → readonly (x ← m; k x).
Proof.
  intros Hm Hk s. rewrite run_bind. specialize (Hm s).
  destruct (m s) as [[a|e] s']; simpl in *; subst; [|done].
  apply Hk.
Qed.
End Readonly.

(** [m] never changes the part [f] of the state. *)
Definition frame {S E A T} (f : S → T) (m : st S E A) : Prop := ∀ s, f (m s).2 = f s.

Section Frames.
Context {S E T : Type} (f : S → T).

Lemma frame_readonly {A} (m : st S E A) : readonly m → frame f m.
Proof. intros Hm s. by rewrite Hm. Qed.

Lemma frame_bind {A B} (m : st S E A) (k : A → st S E B) :
  frame f m → (∀ a, frame f (k a)) → frame f (x ← m; k x).
Proof.
  intros Hm Hk s. rewrite run_bind. specialize (Hm s).
  destruct (m s) as [[a|e] s']; simpl in *; [|done]. by rewrite Hk.
Qed.

Lemma frame_catch {A} (m : st S E A) (h : E → st S E A) :
  frame f m → (∀ e, frame f (h e)) → frame f (st_catch m h).
Proof.
  intros Hm Hh s. unfold st_catch. specialize (Hm s).
  destruct (m s) as [[a|e] s']; simpl in *; [done|]. by rewrite Hh.
Qed.

Lemma frame_iter {A} (g : A → st S E unit) l :
  (∀ x, frame f (g x)) → frame f (st_iter g l).
Proof.
  intros Hg. induction l as [|x l IH]; simpl; [by apply frame_readonly, readonly_ret|].
  by apply frame_bind.
Qed.

End Frames.

Create HintDb st_inv discriminated.
#[export] Hint Resolve readonly_ret readonly_throw readonly_gets readonly_bind
  frame_readonly frame_bind frame_catch frame_iter
  : st_inv.

(** Unfold the monad instances and compute. *)
Ltac st_unfold :=
  unfold mbind, mret, mthrow, st_mbind, st_mret, st_mthrow,
    st_bind, st_ret, st_throw, st_gets, st_modify, st_catch, zoom in *.

(** Unfold the monad and beta-reduce, keeping map lookups folded. *)
Ltac st_norm := st_unfold; cbv beta; unfold id in *.

(** ** Generic list operations *)

(** Remove the first element equal to [x], [None] when there is none. *)
Fixpoint remove_first `{EqDecision A} (x : A) (l : list A) : option (list A) :=
  match l with
  | [] => None
  | y :: l' => if decide (x = y) then Some l' else (y ::.) <$> remove_first x l'
  end.

(** The value of the first pair whose key is [k]. *)
Fixpoint assoc_lookup `{EqDecision K} {V} (k : K) (l : list (K * V)) : option V :=
  match l with
  | [] => None
  | (k', v) :: l' => if decide (k = k') then Some v else assoc_lookup k l'
  end.

Section ListLemmas.
Context `{EqDecision A}.

Lemma remove_first_None (x : A) l : remove_first x l = None ↔ x ∉ l.
Proof.
  induction l as [|y l IH]; simpl.
  - split; [intros _; apply not_elem_of_nil|done].
  - rewrite elem_of_cons. case_decide; subst.
    + split; [done|]. intros H. exfalso. by apply H; left.
    + rewrite fmap_None, IH. naive_solver.
Qed.

Lemma remove_first_Some (x : A) l l' :
  remove_first x l = Some l' →
  ∃ l1 l2, l = l1 ++ (x :: l2) ∧ (x ∉ l1) ∧ l' = l1 ++ l2.
Proof.
  revert l'. induction l as [|y l IH]; intros l'; simpl; [done|].
  case_decide; subst.
  - intros [= <-]. exists [], l. split_and!; [done|apply not_elem_of_nil|done].
  - intros Hr. apply fmap_Some in Hr as (l'' & Hr & ->).
    destruct (IH _ Hr) as (l1 & l2 & -> & Hn & ->).
    exists (y :: l1), l2. split_and!; [done| |done].
    rewrite elem_of_cons. naive_solver.
Qed.

Lemma remove_first_app_r (x : A) l1 l2 :
  x ∉ l1 → remove_first x (l1 ++ l2) = (l1 ++.) <$> remove_first x l2.
Proof.
  induction l1 as [|y l1 IH]; intros Hn; simpl.
  - by destruct (remove_first x l2).
  - rewrite elem_of_cons in Hn. case_decide; [naive_solver|].
    rewrite IH by naive_solver. by destruct (remove_first x l2).
Qed.

(** Appending an absent element and removing it restores the list. *)
Lemma remove_first_snoc (x : A) l :
  x ∉ l → remove_first x (l ++ [x]) = Some l.
Proof.
  intros Hn. rewrite remove_first_app_r by done. simpl.
  rewrite decide_True by done. simpl. f_equal. apply app_nil_r.
Qed.

Lemma remove_first_NoDup (x : A) l l' :
  NoDup l → remove_first x l = Some l' → NoDup l' ∧ x ∉ l'.
Proof.
  intros Hnd (l1 & l2 & -> & Hn & ->)%remove_first_Some.
  apply NoDup_app in Hnd as (Hnd1 & Hdis & Hnd2).
  apply NoDup_cons in Hnd2 as [Hx Hnd2].
  split.
  - apply NoDup_app. split_and!; [done| |done].
    intros z Hz1 Hz2. apply (Hdis z Hz1). by right.
  - rewrite elem_of_app. intros [?|?]; [done|].
    apply (Hdis x); [|by left]. done.
Qed.

Lemma remove_first_fmap `{EqDecision B} (f : A → B) `{!Inj (=) (=) f} (x : A) (l : list A) :
  remove_first (f x) (f <$> l) = fmap (M := list) f <$> remove_first x l.
Proof.
  induction l as [|y l IH]; [done|].
  rewrite fmap_cons. cbn [remove_first].
  destruct (decide (x = y)) as [->|Hne].
  - by rewrite !decide_True.
  - rewrite !decide_False by (try intros ?%(inj f); done).
    rewrite IH. by destruct (remove_first x l).
Qed.

Lemma NoDup_snoc (x : A) (l : list A) : NoDup l → x ∉ l → NoDup (l ++ [x]).
Proof.
  intros Hl Hx. apply NoDup_app. split_and!; [done| |apply NoDup_singleton].
  by intros y Hy ->%list_elem_of_singleton.
Qed.

End ListLemmas.

Section AssocLemmas.
Context `{EqDecision K} {V : Type}.

Lemma assoc_lookup_None (k : K) (l : list (K * V)) :
  assoc_lookup k l = None ↔ k ∉ l.*1.
Proof.
  induction l as [|[k' v'] l IH]; simpl.
  - split; [intros _; apply not_elem_of_nil|done].
  - rewrite elem_of_cons. case_decide; subst; [naive_solver|].
    rewrite IH. naive_solver.
Qed.

End AssocLemmas.

#[export] Hint Resolve remove_first_snoc : st_inv.

(** Run the first computation of a bind whose run is the hypothesis [H]. *)
Ltac run_ok H := rewrite (run_bind_ok _ _ _ _ _ H).

(** One step of a proof that a computation is [readonly] or keeps a
    part of the state ([frame]): split binds, case on matches, close
    with [st_inv]. *)
Ltac st_inv_step :=
  match goal with
  | |- readonly (mbind _ _) => apply readonly_bind; [|intros ?]
  | |- frame _ (mbind _ _) => apply frame_bind; [|intros ?]
  | |- frame _ (st_catch _ _) => apply frame_catch; [|intros ?]
  | |- frame _ (match ?x with _ => _ end) => destruct x
  | |- frame _ (if ?b then _ else _) => destruct b
  | |- readonly (match ?x with _ => _ end) => destruct x
  | |- readonly (if ?b then _ else _) => destruct b
  | |- _ => solve [eauto with st_inv]
  end.

Ltac solve_st_inv := repeat st_inv_step.

(** Close a decidable closed proposition by evaluation. *)
Ltac decide_by_vm := apply (bool_decide_unpack _); vm_compute; exact I.
