(* ===== verification/Url.v ===== *)
(** * Percent-decoding and query strings ([urllib.parse])

    The server receives a request target such as
    [/activities/Chess%20Club/signup?email=a%40b.com].  uvicorn splits it
    at the first [?], percent-decodes the path with
    [urllib.parse.unquote] before routing, and Starlette parses the query
    string with [urllib.parse.parse_qsl(qs, keep_blank_values=True)].
    This file translates those CPython functions: [unquote_to_bytes]
    splits its argument at every [%] and decodes each piece that starts
    with two hexadecimal digits ([unquote]); [parse_qsl] splits at [&],
    each field at its first [=], turns [+] into spaces and unquotes both
    halves.  [quote] and [urlencode] are the client's side
    ([quote(s, safe="")], [urlencode] with [quote_plus]).  The lemmas
    show that [unquote] is the one-pass decoder [percent_decode] and
    that the server's decoding inverts the client's encoding, which
    [Server] uses to follow a client's signup request to the handler.

    Strings are byte strings: a Python [str] is represented by its UTF-8
    encoding, and [unquote]'s final UTF-8 decoding is the identity on
    it; the replacement character CPython substitutes for invalid UTF-8
    after decoding is not modelled. *)

From Stdlib Require Import Ascii.
From S2P Require Import Prelude.

Local Open Scope list_scope.

#[local] Arguments String.append : simpl nomatch.

Module Url.

(** [s.split(sep)] for a one-character separator. *)
Fixpoint split_on (sep : ascii) (s : string) : list string :=
  match s with
  | EmptyString => [""]
  | String c rest =>
      if decide (c = sep) then "" :: split_on sep rest
      else match split_on sep rest with
           | p :: ps => String c p :: ps
           | [] => [String c EmptyString]
           end
  end.

(** [s.split(sep, 1)]: the part before the first [sep] and, when there
    is one, the part after it. *)
Fixpoint split_first (sep : ascii) (s : string) : string * option string :=
  match s with
  | EmptyString => ("", None)
  | String c rest =>
      if decide (c = sep) then ("", Some rest)
      else let '(a, b) := split_first sep rest in (String c a, b)
  end.

(** [_hexdig = '0123456789ABCDEFabcdef'] *)
Definition hex_val (c : ascii) : option nat :=
  let n := nat_of_ascii c in
  if decide (48 ≤ n ≤ 57) then Some (n - 48)
  else if decide (65 ≤ n ≤ 70) then Some (n - 55)
  else if decide (97 ≤ n ≤ 102) then Some (n - 87)
  else None.

(** One item of [bits[1:]] in [unquote_to_bytes]:
    [_hextobyte[item[:2]] + item[2:]], or [b'%' + item] on [KeyError]. *)
Definition unquote_item (item : string) : string :=
  match item with
  | String a (String b rest) =>
      match hex_val a, hex_val b with
      | Some x, Some y => String (ascii_of_nat (16 * x + y)) rest
      | _, _ => String "%" item
      end
  | _ => String "%" item
  end.

(** [unquote(s)]: [bits = s.split('%')]; [bits[0]] followed by the
    decoded items, joined. *)
Definition unquote (s : string) : string :=
  match split_on "%" s with
  | b0 :: items => b0 +:+ String.concat "" (unquote_item <$> items)
  | [] => ""
  end.

(** [s.replace('+', ' ')] *)
Fixpoint replace_plus (s : string) : string :=
  match s with
  | EmptyString => EmptyString
  | String c rest => String (if decide (c = "+"%char) then " "%char else c) (replace_plus rest)
  end.

(** One field of [parse_qsl] with [keep_blank_values=True]: empty fields
    are skipped, a field without [=] has an empty value. *)
Definition parse_field (nv : string) : list (string * string) :=
  if decide (nv = "") then []
  else let '(name, value) := split_first "=" nv in
       [(unquote (replace_plus name), unquote (replace_plus (default "" value)))].

(** [parse_qsl(qs, keep_blank_values=True)] *)
Definition parse_qsl (qs : string) : list (string * string) :=
  if decide (qs = "") then [] else split_on "&" qs ≫= parse_field.

(** ** The client's encoding *)

(** Characters [quote] never escapes: letters, digits and [_.-~]. *)
Definition unreserved (c : ascii) : bool :=
  let n := nat_of_ascii c in
  bool_decide (48 ≤ n ≤ 57 ∨ 65 ≤ n ≤ 90 ∨ 97 ≤ n ≤ 122) ||
  bool_decide (c ∈ ["_"; "."; "-"; "~"]%char).

(** An upper-case hexadecimal digit of [n < 16]. *)
Definition hex_digit (n : nat) : ascii :=
  ascii_of_nat (if decide (n < 10) then 48 + n else 55 + n).

Definition hex_hi (c : ascii) : ascii := hex_digit (nat_of_ascii c / 16).
Definition hex_lo (c : ascii) : ascii := hex_digit (nat_of_ascii c mod 16).

(** [quote(s, safe="")] *)
Fixpoint quote (s : string) : string :=
  match s with
  | EmptyString => EmptyString
  | String c rest =>
      if unreserved c then String c (quote rest)
      else String "%" (String (hex_hi c) (String (hex_lo c) (quote rest)))
  end.

(** [quote_plus(s, safe="")]: as [quote], with spaces as [+]. *)
Fixpoint quote_plus (s : string) : string :=
  match s with
  | EmptyString => EmptyString
  | String c rest =>
      if unreserved c then String c (quote_plus rest)
      else if decide (c = " "%char) then String "+" (quote_plus rest)
      else String "%" (String (hex_hi c) (String (hex_lo c) (quote_plus rest)))
  end.

(** One [name=value] field of [urlencode]. *)
Definition encode_field (kv : string * string) : string := quote_plus kv.1 +:+ "=" +:+ quote_plus kv.2.

(** [urlencode(pairs)] *)
Definition urlencode (kvs : list (string * string)) : string :=
  String.concat "&" (encode_field <$> kvs).

(** ** A direct decoder

    The reference [unquote] is compared with: scan the string once,
    replacing each [%] followed by two hexadecimal digits by the byte
    they denote. *)
Fixpoint percent_decode (s : string) : string :=
  match s with
  | EmptyString => EmptyString
  | String c rest =>
      if decide (c = "%"%char) then
        match rest with
        | String a (String b rest') =>
            match hex_val a, hex_val b with
            | Some x, Some y => String (ascii_of_nat (16 * x + y)) (percent_decode rest')
            | _, _ => String c (percent_decode rest)
            end
        | _ => String c (percent_decode rest)
        end
      else String c (percent_decode rest)
  end.

(** ** Splitting *)

Section Split.
Context (sep : ascii).

Lemma split_on_nonempty s : split_on sep s ≠ [].
Proof. destruct s as [|c s]; simpl; [done|]. case_decide; [done|]. by destruct (split_on sep s). Qed.

Lemma split_on_neq c t :
  c ≠ sep →
  split_on sep (String c t) =
    match split_on sep t with p :: ps => String c p :: ps | [] => [String c ""] end.
Proof. intros Hc. simpl. by rewrite decide_False. Qed.

(** The separator does not occur in [s]. *)
Fixpoint no_char (s : string) : bool :=
  match s with
  | EmptyString => true
  | String c rest => bool_decide (c ≠ sep) && no_char rest
  end.

Lemma no_char_app p q : no_char (p +:+ q) = no_char p && no_char q.
Proof. induction p as [|c p IH]; simpl; [done|]. by rewrite IH, andb_assoc. Qed.

Lemma split_on_free p : no_char p = true → split_on sep p = [p].
Proof.
  induction p as [|c p IH]; simpl; [done|]. intros [Hc%bool_decide_eq_true Hp]%andb_prop.
  rewrite decide_False by done. by rewrite IH.
Qed.

Lemma split_on_free_app p r :
  no_char p = true → split_on sep (p +:+ String sep r) = p :: split_on sep r.
Proof.
  induction p as [|c p IH]; simpl; [by rewrite decide_True|].
  intros [Hc%bool_decide_eq_true Hp]%andb_prop. rewrite decide_False by done. by rewrite IH.
Qed.

(** Splitting a join of separator-free pieces gives the pieces back. *)
Lemma split_on_concat pieces :
  pieces ≠ [] → Forall (λ p, no_char p = true) pieces →
  split_on sep (String.concat (String sep "") pieces) = pieces.
Proof.
  induction pieces as [|p [|q qs] IH]; intros Hne Hf; [done| |].
  - rewrite Forall_singleton in Hf. exact (split_on_free p Hf).
  - apply Forall_cons in Hf as [Hp Hf]. change (String.concat (String sep "") (p :: q :: qs))
      with (p +:+ String sep (String.concat (String sep "") (q :: qs))).
    rewrite split_on_free_app by done. by rewrite IH.
Qed.

Lemma split_first_free_app p r :
  no_char p = true → split_first sep (p +:+ String sep r) = (p, Some r).
Proof.
  induction p as [|c p IH]; simpl; [by rewrite decide_True|].
  intros [Hc%bool_decide_eq_true Hp]%andb_prop. rewrite decide_False by done. by rewrite IH.
Qed.
End Split.

(** ** [unquote] is the direct decoder *)

Lemma append_nil_r s : s +:+ "" = s.
Proof. induction s as [|c s IH]; simpl; by rewrite ?IH. Qed.

Lemma concat_empty_cons x xs : String.concat "" (x :: xs) = x +:+ String.concat "" xs.
Proof. destruct xs; simpl; [by rewrite append_nil_r|done]. Qed.

Lemma unquote_split r p ps :
  split_on "%" r = p :: ps → unquote r = p +:+ String.concat "" (unquote_item <$> ps).
Proof. intros Hr. unfold unquote. by rewrite Hr. Qed.

Lemma unquote_pct t : unquote (String "%" t) = String.concat "" (unquote_item <$> split_on "%" t).
Proof. unfold unquote. cbn [split_on]. by rewrite decide_True. Qed.

Lemma unquote_cons c t : c ≠ "%"%char → unquote (String c t) = String c (unquote t).
Proof.
  intros Hc. destruct (split_on "%" t) as [|p ps] eqn:Ht; [by destruct (split_on_nonempty "%" t)|].
  rewrite (unquote_split t p ps Ht). apply (unquote_split _ (String c p) ps). by rewrite split_on_neq, Ht.
Qed.

Lemma percent_decode_cons c t : c ≠ "%"%char → percent_decode (String c t) = String c (percent_decode t).
Proof. intros Hc. simpl. by rewrite decide_False. Qed.

Lemma hex_val_pct : hex_val "%" = None.
Proof. reflexivity. Qed.

Lemma unquote_percent_decode s : unquote s = percent_decode s.
Proof.
  induction s as [s IH] using (induction_ltof1 _ String.length). unfold ltof in IH.
  destruct s as [|c t]; [reflexivity|].
  destruct (decide (c = "%"%char)) as [->|Hc].
  2:{ rewrite unquote_cons, percent_decode_cons by done. f_equal. apply IH. simpl. lia. }
  rewrite unquote_pct. cbn [percent_decode]. rewrite decide_True by done.
  destruct t as [|a t]; [reflexivity|].
  destruct (decide (a = "%"%char)) as [->|Ha].
  { cbn [split_on]. rewrite decide_True by done. cbn [fmap list_fmap]. rewrite concat_empty_cons.
    rewrite <-unquote_pct, IH by (simpl; lia). destruct t; [done|]. by rewrite hex_val_pct. }
  rewrite split_on_neq by done. destruct t as [|b r].
  { rewrite percent_decode_cons by done. reflexivity. }
  destruct (decide (b = "%"%char)) as [->|Hb].
  { cbn [split_on]. rewrite decide_True by done. cbn [fmap list_fmap]. rewrite concat_empty_cons.
    rewrite <-unquote_pct, IH by (simpl; lia).
    rewrite hex_val_pct. destruct (hex_val a); rewrite (percent_decode_cons a) by done; reflexivity. }
  rewrite split_on_neq by done.
  destruct (split_on "%" r) as [|p ps] eqn:Hr; [by destruct (split_on_nonempty "%" r)|].
  cbn [fmap list_fmap]. rewrite concat_empty_cons. cbn [unquote_item].
  rewrite (percent_decode_cons a), (percent_decode_cons b) by done.
  rewrite <-(IH r) by (simpl; lia). rewrite (unquote_split r p ps Hr).
  by destruct (hex_val a), (hex_val b).
Qed.

(** ** Round trips *)

(** The two digits [quote] writes for a byte decode back to it. *)
Lemma hex_roundtrip c :
  match hex_val (hex_hi c), hex_val (hex_lo c) with
  | Some x, Some y => ascii_of_nat (16 * x + y) = c
  | _, _ => False
  end.
Proof. destruct c as [[][][][][][][][]]; vm_compute; reflexivity. Qed.

Lemma hex_hi_lo_unreserved c : unreserved (hex_hi c) = true ∧ unreserved (hex_lo c) = true.
Proof. destruct c as [[][][][][][][][]]; split; reflexivity. Qed.

Lemma unreserved_special c :
  unreserved c = true → c ≠ "%"%char ∧ c ≠ "+"%char ∧ c ≠ "="%char ∧ c ≠ "&"%char ∧ c ≠ " "%char.
Proof. intros Hc. split_and!; intros ->; discriminate Hc. Qed.

Lemma percent_decode_hex c r :
  percent_decode (String "%" (String (hex_hi c) (String (hex_lo c) r))) = String c (percent_decode r).
Proof.
  cbn [percent_decode]. rewrite decide_True by done. pose proof (hex_roundtrip c) as H.
  destruct (hex_val (hex_hi c)), (hex_val (hex_lo c)); [by rewrite H|done..].
Qed.

Lemma replace_plus_unreserved c r :
  unreserved c = true → replace_plus (String c r) = String c (replace_plus r).
Proof. intros Hc. destruct (unreserved_special c Hc) as (_ & Hp & _). simpl. by rewrite decide_False. Qed.

Lemma replace_plus_pct r : replace_plus (String "%" r) = String "%" (replace_plus r).
Proof. reflexivity. Qed.

Lemma replace_plus_plus r : replace_plus (String "+" r) = String " " (replace_plus r).
Proof. reflexivity. Qed.

Lemma percent_decode_quote_plus s : percent_decode (replace_plus (quote_plus s)) = s.
Proof.
  induction s as [|c s IH]; [done|]. simpl. destruct (unreserved c) eqn:Hc.
  - destruct (unreserved_special c Hc) as [Hpct _].
    by rewrite replace_plus_unreserved, percent_decode_cons, IH.
  - destruct (hex_hi_lo_unreserved c) as [Hh Hl]. case_decide as Hsp.
    + subst. rewrite replace_plus_plus, percent_decode_cons by done. by rewrite IH.
    + rewrite replace_plus_pct, !replace_plus_unreserved by done.
      by rewrite percent_decode_hex, IH.
Qed.

Lemma quote_plus_free sep s :
  unreserved sep = false → sep ≠ "+"%char → sep ≠ "%"%char → no_char sep (quote_plus s) = true.
Proof.
  intros Hu Hp Hpct. induction s as [|c s IH]; [done|]. simpl.
  destruct (hex_hi_lo_unreserved c) as [Hh Hl].
  destruct (unreserved c) eqn:Hc; [|case_decide]; simpl;
    repeat (apply andb_true_intro; split); try done;
    apply bool_decide_eq_true; intros Heq; subst; congruence.
Qed.

Lemma parse_qsl_split qs : parse_qsl qs = split_on "&" qs ≫= parse_field.
Proof. unfold parse_qsl. case_decide; [by subst|done]. Qed.

Lemma unquote_quote_plus s : unquote (replace_plus (quote_plus s)) = s.
Proof. rewrite unquote_percent_decode. apply percent_decode_quote_plus. Qed.

Lemma parse_field_encode kv : parse_field (encode_field kv) = [kv].
Proof.
  destruct kv as [k v]. unfold parse_field, encode_field. simpl.
  rewrite decide_False by (destruct (quote_plus k); discriminate).
  rewrite (split_first_free_app "=" (quote_plus k) (quote_plus v)) by (by apply quote_plus_free).
  simpl. by rewrite !unquote_quote_plus.
Qed.

Lemma encode_field_free kv : no_char "&" (encode_field kv) = true.
Proof.
  unfold encode_field. rewrite no_char_app. simpl.
  by rewrite !quote_plus_free.
Qed.

Lemma parse_encode_fields kvs : (encode_field <$> kvs) ≫= parse_field = kvs.
Proof.
  induction kvs as [|kv kvs IH]; [done|].
  change ((encode_field <$> kv :: kvs) ≫= parse_field)
    with (parse_field (encode_field kv) ++ ((encode_field <$> kvs) ≫= parse_field)).
  by rewrite parse_field_encode, IH.
Qed.

(** ** Decoding a composed target *)

Lemma append_assoc_str p q r : (p +:+ q) +:+ r = p +:+ (q +:+ r).
Proof. induction p as [|c p IH]; simpl; by rewrite ?IH. Qed.

Lemma percent_decode_app_free p x :
  no_char "%" p = true → percent_decode (p +:+ x) = p +:+ percent_decode x.
Proof.
  induction p as [|c p IH]; [done|]. simpl. intros [Hc%bool_decide_eq_true Hp]%andb_prop.
  rewrite decide_False by done. by rewrite IH.
Qed.

Lemma percent_decode_quote_app s x : percent_decode (quote s +:+ x) = s +:+ percent_decode x.
Proof.
  induction s as [|c s IH]; [done|]. simpl. destruct (unreserved c) eqn:Hc.
  - destruct (unreserved_special c Hc) as [Hpct _]. simpl. rewrite decide_False by done. by rewrite IH.
  - change (String "%" (String (hex_hi c) (String (hex_lo c) (quote s))) +:+ x)
      with (String "%" (String (hex_hi c) (String (hex_lo c) (quote s +:+ x)))).
    by rewrite percent_decode_hex, IH.
Qed.

Lemma quote_free sep s :
  unreserved sep = false → sep ≠ "%"%char → no_char sep (quote s) = true.
Proof.
  intros Hu Hpct. induction s as [|c s IH]; [done|]. simpl.
  destruct (hex_hi_lo_unreserved c) as [Hh Hl].
  destruct (unreserved c) eqn:Hc; simpl;
    repeat (apply andb_true_intro; split); try done;
    apply bool_decide_eq_true; intros Heq; subst; congruence.
Qed.

Lemma parse_urlencode kvs : parse_qsl (urlencode kvs) = kvs.
Proof.
  rewrite parse_qsl_split. destruct kvs as [|kv kvs]; [done|]. unfold urlencode.
  rewrite split_on_concat; [apply parse_encode_fields|done|].
  apply Forall_forall. intros p (kv' & -> & _)%list_elem_of_fmap. apply encode_field_free.
Qed.

End Url.
