(* ===== verification/PyCore.v ===== *)
(** * The Python object model used by the handlers of [app.py]

    Values, a heap of mutable objects with identities, the module
    globals and the exceptions of Python, with the operations the
    endpoint functions perform: subscripting [c[k]], membership
    [x in c], truthiness ([if not x]), [list.append], [list.remove],
    global name lookup and object allocation.  Each operation raises the
    exception CPython raises, with its message, on the inputs it does not
    accept.

    Objects live in [heap] under a location: two Python names bound to
    the same list are two [VRef l] with the same [l], so a mutation
    through one is seen through the other.  Equality [==] is the
    decidable equality of [value]: structural on [None], [int] and [str],
    identity on heap objects (Python compares lists and dicts
    structurally; the handlers only ever compare strings). *)

From S2P Require Import Prelude.

Local Open Scope string_scope.
Local Open Scope list_scope.

Module Py.

Definition loc := positive.

Inductive value :=
  | VNone
  | VInt (z : Z)
  | VStr (s : string)
  | VRef (l : loc)
  | VOpaque (ty : string).

#[export] Instance value_eq_dec : EqDecision value.
Proof. solve_decision. Defined.

(** Heap objects: [list], [dict] (insertion ordered), and instances of a
    user class with their attributes. *)
Inductive obj :=
  | OList (xs : list value)
  | ODict (items : list (value * value))
  | OInstance (cls : string) (attrs : list (string * value)).

#[export] Instance obj_eq_dec : EqDecision obj.
Proof. solve_decision. Defined.

Inductive exn :=
  | HTTPException (status_code : Z) (detail : string)
  | TypeError (msg : string)
  | NameError (msg : string)
  | KeyError (key : value)
  | IndexError (msg : string)
  | ValueError (msg : string)
  | AttributeError (msg : string)
  | IntegrityError (msg : string)
  | OperationalError (msg : string)
  | SystemError (msg : string).

#[export] Instance exn_eq_dec : EqDecision exn.
Proof. solve_decision. Defined.

(** JSON documents, as FastAPI's encoder produces them from the values a
    handler returns (dicts keep their insertion order). *)
Inductive json :=
  | JNull
  | JInt (z : Z)
  | JStr (s : string)
  | JList (xs : list json)
  | JObj (fields : list (string * json)).

Record pystate := mk_pystate {
  heap : gmap loc obj;
  next_loc : loc;
  globals : gmap string value
}.

Abbreviation PyM := (st pystate exn).

Definition set_obj (l : loc) (o : obj) (s : pystate) : pystate :=
  mk_pystate (<[l := o]> (heap s)) (next_loc s) (globals s).

(** [type(v).__name__] *)
Definition type_name (h : gmap loc obj) (v : value) : string :=
  match v with
  | VNone => "NoneType"
  | VInt _ => "int"
  | VStr _ => "str"
  | VOpaque ty => ty
  | VRef l =>
      match h !! l with
      | Some (OList _) => "list"
      | Some (ODict _) => "dict"
      | Some (OInstance cls _) => cls
      | None => "object"
      end
  end.

Definition type_of (v : value) : PyM string :=
  st_gets (λ s, type_name (heap s) v).

(** The object at [l]; a location outside the heap is an internal
    error, which the well-formedness invariant rules out. *)
Definition load (l : loc) : PyM obj :=
  s ← st_gets id;
  match heap s !! l with
  | Some o => mret o
  | None => mthrow (SystemError "dangling reference")
  end.

Definition alloc (o : obj) : PyM value :=
  s ← st_gets id;
  let l := next_loc s in
  _ ← st_modify (λ s, mk_pystate (<[l := o]> (heap s)) (Pos.succ l) (globals s));
  mret (VRef l).

(** Lists and dicts are unhashable, so they cannot be dict keys. *)
Definition check_hashable (k : value) : PyM unit :=
  match k with
  | VRef l =>
      o ← load l;
      match o with
      | OList _ => mthrow (TypeError "unhashable type: 'list'")
      | ODict _ => mthrow (TypeError "unhashable type: 'dict'")
      | OInstance _ _ => mret tt
      end
  | _ => mret tt
  end.

(** A Python index [i] into a sequence of length [n]: negative indices
    count from the end. *)
Definition norm_index (i : Z) (n : nat) : option nat :=
  let j := if (i <? 0)%Z then (i + Z.of_nat n)%Z else i in
  if ((0 <=? j) && (j <? Z.of_nat n))%Z then Some (Z.to_nat j) else None.

Definition not_subscriptable (ty : string) : exn :=
  TypeError ("'" +:+ ty +:+ "' object is not subscriptable").

(** [c[k]] *)
Definition getitem (c k : value) : PyM value :=
  match c with
  | VRef l =>
      o ← load l;
      match o with
      | ODict items =>
          _ ← check_hashable k;
          match assoc_lookup k items with
          | Some v => mret v
          | None => mthrow (KeyError k)
          end
      | OList xs =>
          match k with
          | VInt i =>
              match norm_index i (length xs) ≫= (xs !!.) with
              | Some v => mret v
              | None => mthrow (IndexError "list index out of range")
              end
          | _ =>
              ty ← type_of k;
              mthrow (TypeError ("list indices must be integers or slices, not " +:+ ty))
          end
      | OInstance cls _ => mthrow (not_subscriptable cls)
      end
  | VStr str =>
      match k with
      | VInt i =>
          match norm_index i (String.length str) ≫= (λ n, String.get n str) with
          | Some a => mret (VStr (String a EmptyString))
          | None => mthrow (IndexError "string index out of range")
          end
      | _ =>
          ty ← type_of k;
          mthrow (TypeError ("string indices must be integers, not '" +:+ ty +:+ "'"))
      end
  | VNone => mthrow (not_subscriptable "NoneType")
  | VInt _ => mthrow (not_subscriptable "int")
  | VOpaque ty => mthrow (not_subscriptable ty)
  end.

(** [sub in s] for strings. *)
Definition str_contains (sub str : string) : bool :=
  match String.index 0 sub str with Some _ => true | None => false end.

Definition not_iterable (ty : string) : exn :=
  TypeError ("argument of type '" +:+ ty +:+ "' is not iterable").

(** [x in c] *)
Definition contains (x c : value) : PyM bool :=
  match c with
  | VRef l =>
      o ← load l;
      match o with
      | OList xs => mret (bool_decide (x ∈ xs))
      | ODict items => _ ← check_hashable x; mret (bool_decide (x ∈ items.*1))
      | OInstance cls _ => mthrow (not_iterable cls)
      end
  | VStr str =>
      match x with
      | VStr sub => mret (str_contains sub str)
      | _ =>
          ty ← type_of x;
          mthrow (TypeError ("'in <string>' requires string as left operand, not " +:+ ty))
      end
  | VNone => mthrow (not_iterable "NoneType")
  | VInt _ => mthrow (not_iterable "int")
  | VOpaque ty => mthrow (not_iterable ty)
  end.

(** [bool(v)]: a user class without [__bool__] and [__len__] is true. *)
Definition truthy (v : value) : PyM bool :=
  match v with
  | VNone => mret false
  | VInt z => mret (bool_decide (z ≠ 0%Z))
  | VStr str => mret (bool_decide (str ≠ ""))
  | VOpaque _ => mret true
  | VRef l =>
      o ← load l;
      match o with
      | OList xs => mret (bool_decide (xs ≠ []))
      | ODict items => mret (bool_decide (items ≠ []))
      | OInstance _ _ => mret true
      end
  end.

Definition no_attribute (ty attr : string) : exn :=
  AttributeError ("'" +:+ ty +:+ "' object has no attribute '" +:+ attr +:+ "'").

(** [c.append(x)]: mutates the list object in place. *)
Definition list_append (c x : value) : PyM value :=
  match c with
  | VRef l =>
      o ← load l;
      match o with
      | OList xs => _ ← st_modify (set_obj l (OList (xs ++ [x]))); mret VNone
      | _ => ty ← type_of c; mthrow (no_attribute ty "append")
      end
  | _ => ty ← type_of c; mthrow (no_attribute ty "append")
  end.

(** [c.remove(x)]: removes the first element equal to [x]. *)
Definition list_remove (c x : value) : PyM value :=
  match c with
  | VRef l =>
      o ← load l;
      match o with
      | OList xs =>
          match remove_first x xs with
          | Some xs' => _ ← st_modify (set_obj l (OList xs')); mret VNone
          | None => mthrow (ValueError "list.remove(x): x not in list")
          end
      | _ => ty ← type_of c; mthrow (no_attribute ty "remove")
      end
  | _ => ty ← type_of c; mthrow (no_attribute ty "remove")
  end.

(** A module-level name. *)
Definition load_global (x : string) : PyM value :=
  s ← st_gets id;
  match globals s !! x with
  | Some v => mret v
  | None => mthrow (NameError ("name '" +:+ x +:+ "' is not defined"))
  end.

(** ** Behaviour of the operations *)

Section Semantics.
Implicit Types (s : pystate) (l : loc) (v x k : value).

Lemma run_load_bind {A} s l o (f : obj → PyM A) :
  heap s !! l = Some o → (x ← load l; f x) s = f o s.
Proof. intros H. unfold load. st_norm. by rewrite H. Qed.

Lemma getitem_dict_str s l items key v :
  heap s !! l = Some (ODict items) → assoc_lookup (VStr key) items = Some v →
  getitem (VRef l) (VStr key) s = (Ok v, s).
Proof. intros Hl Hv. unfold getitem. rewrite (run_load_bind _ _ _ _ Hl). simpl. by rewrite Hv. Qed.

(** Subscripting an instance of a class without [__getitem__]. *)
Lemma getitem_instance s l cls attrs k :
  heap s !! l = Some (OInstance cls attrs) →
  getitem (VRef l) k s = (Exc (not_subscriptable cls), s).
Proof. intros Hl. unfold getitem. by rewrite (run_load_bind _ _ _ _ Hl). Qed.

Lemma contains_list s l xs x :
  heap s !! l = Some (OList xs) →
  contains x (VRef l) s = (Ok (bool_decide (x ∈ xs)), s).
Proof. intros Hl. unfold contains. by rewrite (run_load_bind _ _ _ _ Hl). Qed.

Lemma contains_dict_str s l items key :
  heap s !! l = Some (ODict items) →
  contains (VStr key) (VRef l) s = (Ok (bool_decide (VStr key ∈ items.*1)), s).
Proof. intros Hl. unfold contains. by rewrite (run_load_bind _ _ _ _ Hl). Qed.

Lemma truthy_instance s l cls attrs :
  heap s !! l = Some (OInstance cls attrs) → truthy (VRef l) s = (Ok true, s).
Proof. intros Hl. unfold truthy. by rewrite (run_load_bind _ _ _ _ Hl). Qed.

Lemma list_append_list s l xs x :
  heap s !! l = Some (OList xs) →
  list_append (VRef l) x s = (Ok VNone, set_obj l (OList (xs ++ [x])) s).
Proof. intros Hl. unfold list_append. by rewrite (run_load_bind _ _ _ _ Hl). Qed.

Lemma list_remove_list s l xs xs' x :
  heap s !! l = Some (OList xs) → remove_first x xs = Some xs' →
  list_remove (VRef l) x s = (Ok VNone, set_obj l (OList xs') s).
Proof. intros Hl Hr. unfold list_remove. rewrite (run_load_bind _ _ _ _ Hl). by rewrite Hr. Qed.

Lemma run_load_global_bind {A} s (name : string) v (f : value → PyM A) :
  globals s !! name = Some v → (y ← load_global name; f y) s = f v s.
Proof. intros H. unfold load_global. st_norm. by rewrite H. Qed.

Lemma load_global_undefined {A} s (name : string) (f : value → PyM A) :
  globals s !! name = None →
  (y ← load_global name; f y) s =
  (Exc (NameError ("name '" +:+ name +:+ "' is not defined")), s).
Proof. intros H. unfold load_global. st_norm. by rewrite H. Qed.

Lemma run_alloc s o :
  alloc o s =
  (Ok (VRef (next_loc s)),
   mk_pystate (<[next_loc s := o]> (heap s)) (Pos.succ (next_loc s)) (globals s)).
Proof. reflexivity. Qed.

(** Reading operations leave the Python state as it is. *)
Lemma load_readonly l : readonly (load l).
Proof. unfold load. solve_st_inv. Qed.

Lemma type_of_readonly v : readonly (type_of v).
Proof. apply readonly_gets. Qed.

Lemma check_hashable_readonly k : readonly (check_hashable k).
Proof. unfold check_hashable. pose proof load_readonly. solve_st_inv. Qed.

Lemma getitem_readonly c k : readonly (getitem c k).
Proof.
  unfold getitem. pose proof load_readonly. pose proof type_of_readonly.
  pose proof check_hashable_readonly. solve_st_inv.
Qed.

Lemma contains_readonly x c : readonly (contains x c).
Proof.
  unfold contains. pose proof load_readonly. pose proof type_of_readonly.
  pose proof check_hashable_readonly. solve_st_inv.
Qed.

Lemma truthy_readonly v : readonly (truthy v).
Proof. unfold truthy. pose proof load_readonly. solve_st_inv. Qed.

Lemma load_global_readonly (name : string) : readonly (load_global name).
Proof. unfold load_global. solve_st_inv. Qed.
(** No operation rebinds a module global. *)
Lemma set_obj_globals l o : frame globals (st_modify (set_obj l o) : PyM unit).
Proof. by intros s. Qed.

Lemma alloc_globals o : frame globals (alloc o).
Proof. by intros s. Qed.

Lemma list_append_globals c x : frame globals (list_append c x).
Proof.
  unfold list_append. pose proof set_obj_globals. pose proof load_readonly.
  pose proof type_of_readonly. solve_st_inv.
Qed.

Lemma list_remove_globals c x : frame globals (list_remove c x).
Proof.
  unfold list_remove. pose proof set_obj_globals. pose proof load_readonly.
  pose proof type_of_readonly. solve_st_inv.
Qed.
End Semantics.

End Py.

#[export] Hint Resolve Py.load_readonly Py.type_of_readonly Py.check_hashable_readonly
  Py.getitem_readonly Py.contains_readonly Py.truthy_readonly Py.load_global_readonly
  Py.alloc_globals Py.list_append_globals Py.list_remove_globals : st_inv.
