(* ===== verification/Activity.v ===== *)
(** * The [Activity] model ([src/src/models/activity.py])

    The declarative class [Activity] maps the table [activities].  An
    instance is a record of its column attributes, which hold Python
    values and are [None] until set; the primary key [id] and the server
    default [created_at] are filled in by the database when the row is
    inserted.  [Activity_new] is the keyword constructor SQLAlchemy gives
    declarative classes, [to_dict] the method of the class, and
    [activity_attrs] the attributes an instance exposes to Python code. *)

From S2P Require Import Prelude PyCore.

Local Open Scope string_scope.
Local Open Scope list_scope.

Module Model.

Import Py.

(** The columns of the table, in declaration order.  [name] and [time]
    are [nullable=False]; the lengths [String(255)] and [String(100)] are
    not checked by SQLite and are not modelled. *)
Record Activity := mk_Activity {
  id : value;
  name : value;
  description : value;
  time : value;
  category : value;
  created_at : value;
  updated_at : value
}.

#[export] Instance Activity_eq_dec : EqDecision Activity.
Proof. solve_decision. Defined.

(** A fresh instance: every column attribute is [None]. *)
Definition empty_activity : Activity :=
  mk_Activity VNone VNone VNone VNone VNone VNone VNone.

(** The column attributes, in declaration order. *)
Definition columns : list string :=
  ["id"; "name"; "description"; "time"; "category"; "created_at"; "updated_at"].

(** The names of the class body of [activity.py] that are not columns. *)
Definition class_attrs : list string := ["__tablename__"; "to_dict"].

(** The attributes [Activity] gets from the declarative base of
    SQLAlchemy ([declarative_base()] in [models/__init__.py], which is not
    among the sources) and from its mapping: the base's [registry],
    [metadata], constructor and [__abstract__] flag, and the mapped
    class's table, mapper and class manager. *)
Definition base_attrs : list string :=
  ["registry"; "metadata"; "_sa_registry"; "__abstract__"; "__table__";
   "__mapper__"; "_sa_class_manager"].

(** The attributes every Python 3.11 class has, from [object] and from
    its metaclass [type]: the names [hasattr(C, k)] accepts for a class
    [C] with an empty body. *)
Definition object_attrs : list string :=
  ["__annotations__"; "__base__"; "__bases__"; "__basicsize__"; "__call__";
   "__class__"; "__delattr__"; "__dict__"; "__dictoffset__"; "__dir__";
   "__doc__"; "__eq__"; "__flags__"; "__format__"; "__ge__";
   "__getattribute__"; "__getstate__"; "__gt__"; "__hash__"; "__init__";
   "__init_subclass__"; "__instancecheck__"; "__itemsize__"; "__le__";
   "__lt__"; "__module__"; "__mro__"; "__name__"; "__ne__"; "__new__";
   "__or__"; "__prepare__"; "__qualname__"; "__reduce__"; "__reduce_ex__";
   "__repr__"; "__ror__"; "__setattr__"; "__sizeof__"; "__str__";
   "__subclasscheck__"; "__subclasses__"; "__subclasshook__";
   "__text_signature__"; "__weakref__"; "__weakrefoffset__"; "mro"].

(** The names [hasattr(Activity, k)] accepts. *)
Definition attr_names : list string := columns ++ class_attrs ++ base_attrs ++ object_attrs.

(** [setattr(self, k, v)] for a name of the class, [ty] being
    [type(v).__name__].  A column attribute is set through its
    instrumented descriptor.  Of the other names, the three data
    descriptors of [object] check the value: [__class__] wants a class
    and [__dict__] a dict (the values of the model are neither: see
    Not modelled), and [__weakref__], declared by the base class, is
    read-only.  Any other name becomes a plain instance attribute, which
    the row does not see. *)
Definition set_attr (ty : string) (k : string) (v : value) (a : Activity) : outcome exn Activity :=
  if decide (k = "id") then
    Ok (mk_Activity v (name a) (description a) (time a) (category a) (created_at a) (updated_at a))
  else if decide (k = "name") then
    Ok (mk_Activity (id a) v (description a) (time a) (category a) (created_at a) (updated_at a))
  else if decide (k = "description") then
    Ok (mk_Activity (id a) (name a) v (time a) (category a) (created_at a) (updated_at a))
  else if decide (k = "time") then
    Ok (mk_Activity (id a) (name a) (description a) v (category a) (created_at a) (updated_at a))
  else if decide (k = "category") then
    Ok (mk_Activity (id a) (name a) (description a) (time a) v (created_at a) (updated_at a))
  else if decide (k = "created_at") then
    Ok (mk_Activity (id a) (name a) (description a) (time a) (category a) v (updated_at a))
  else if decide (k = "updated_at") then
    Ok (mk_Activity (id a) (name a) (description a) (time a) (category a) (created_at a) v)
  else if decide (k = "__class__") then
    Exc (TypeError ("__class__ must be set to a class, not '" +:+ ty +:+ "' object"))
  else if decide (k = "__dict__") then
    Exc (TypeError ("__dict__ must be set to a dictionary, not a '" +:+ ty +:+ "'"))
  else if decide (k = "__weakref__") then
    Exc (AttributeError "attribute '__weakref__' of 'Base' objects is not writable")
  else Ok a.

(** [Activity( **kwargs)]: SQLAlchemy's declarative constructor takes
    the keywords in order; it raises [TypeError] on a name for which
    [hasattr(type(self), k)] fails, and otherwise does
    [setattr(self, k, kwargs[k])].  [tyname] gives [type(v).__name__]. *)
Fixpoint Activity_new_from (tyname : value → string) (a : Activity)
  (kwargs : list (string * value)) : outcome exn Activity :=
  match kwargs with
  | [] => Ok a
  | (k, v) :: kw =>
      if decide (k ∈ attr_names) then
        match set_attr (tyname v) k v a with
        | Ok a' => Activity_new_from tyname a' kw
        | Exc e => Exc e
        end
      else Exc (TypeError ("'" +:+ k +:+ "' is an invalid keyword argument for Activity"))
  end.

Definition Activity_new (tyname : value → string) (kwargs : list (string * value))
  : outcome exn Activity :=
  Activity_new_from tyname empty_activity kwargs.

(** FastAPI's encoding of the scalar values [to_dict] puts in its dict
    (columns only ever hold [None], integers and strings). *)
Definition value_json (v : value) : json :=
  match v with
  | VInt z => JInt z
  | VStr s => JStr s
  | _ => JNull
  end.

(** [Activity.to_dict] *)
Definition to_dict (a : Activity) : json :=
  JObj [("id", value_json (id a));
        ("name", value_json (name a));
        ("description", value_json (description a));
        ("time", value_json (time a));
        ("category", value_json (category a))].

(** The attributes of a loaded instance, as Python code sees them. *)
Definition activity_attrs (a : Activity) : list (string * value) :=
  [("id", id a); ("name", name a); ("description", description a);
   ("time", time a); ("category", category a);
   ("created_at", created_at a); ("updated_at", updated_at a)].

(** The [NOT NULL] constraints of the table. *)
Definition not_null_ok (a : Activity) : bool :=
  bool_decide (name a ≠ VNone) && bool_decide (time a ≠ VNone).

(** ** The constructor on string keywords *)

(** [Activity( **d)] for keywords naming distinct columns other than
    the key and the timestamps: each column named takes its string, the
    others keep their value. *)
Lemma Activity_new_from_strs tn a d :
  NoDup d.*1 → Forall (λ k, k ∈ ["name"; "description"; "time"; "category"]) d.*1 →
  Activity_new_from tn a ((λ kv, (kv.1, VStr kv.2)) <$> d) =
    Ok (mk_Activity (id a) (from_option VStr (name a) (assoc_lookup "name" d))
          (from_option VStr (description a) (assoc_lookup "description" d))
          (from_option VStr (time a) (assoc_lookup "time" d))
          (from_option VStr (category a) (assoc_lookup "category" d))
          (created_at a) (updated_at a)).
Proof.
  induction d as [|[k v] d IH] in a |- *; intros Hnd Hks; [by destruct a|].
  apply NoDup_cons in Hnd as [Hkd Hnd]. apply Forall_cons in Hks as [Hk Hks]. simpl in Hk, Hkd.
  apply assoc_lookup_None in Hkd. cbn [fmap list_fmap Activity_new_from fst snd].
  repeat (apply elem_of_cons in Hk as [->|Hk]); [..|by apply not_elem_of_nil in Hk];
    (rewrite decide_True by decide_by_vm; unfold set_attr;
     repeat (rewrite decide_False by done); rewrite decide_True by done;
     rewrite IH by done; cbn; by rewrite Hkd).
Qed.

End Model.
