(* ===== verification/Database.v ===== *)
(** * The [activities] table and the SQLAlchemy session

    [models/__init__.py] (the engine, [Base], [get_db]) is not among the
    sources; this file models the part of SQLAlchemy over SQLite the app
    uses: [db.query(Activity).count()], [.all()],
    [.filter(Activity.name == n).first()], [db.add], [db.commit] and the
    session's [close] at the end of [get_db].

    The table is the list of its rows in rowid order.  An insert takes
    the [INTEGER PRIMARY KEY] given by the instance or, when it is
    [None], SQLite's automatic key ([max(rowid) + 1], 1 in an empty
    table, within the 64-bit range); it checks the [NOT NULL] columns
    ([name], [time]) and the uniqueness of the key, and fills the server
    default [created_at] from the clock.  A commit flushes the objects
    added to the session in order; when one insert fails the transaction
    is rolled back and the pending objects are expunged.  Queries read
    the committed rows (the session does not autoflush; no query of the
    app runs while objects are pending). *)

From S2P Require Import Prelude PyCore Activity.

Local Open Scope string_scope.
Local Open Scope list_scope.

Module Db.

Import Py Model.

Record dbstate := mk_db {
  rows : list Activity;
  pending : list Activity;
  clock : Z
}.

Abbreviation DbM := (st dbstate exn).

Definition row_ids (rs : list Activity) : list value := id <$> rs.

(** SQLite's [INTEGER] range (64-bit signed). *)
Definition int64_max : Z := 9223372036854775807.

(** The largest integer key of the table. *)
Definition max_id (rs : list Activity) : option Z :=
  foldr (λ a m, match id a with
                | VInt z => Some (from_option (Z.max z) z m)
                | _ => m
                end) None rs.

(** SQLite's automatic [ROWID]: one more than the largest key, 1 in an
    empty table. *)
Definition next_id (rs : list Activity) : Z :=
  match max_id rs with Some m => (m + 1)%Z | None => 1%Z end.

(** When the largest key is already [int64_max], SQLite tries random
    unused keys and may fail with [SQLITE_FULL]; of these outcomes the
    model takes the failure. *)
Definition auto_key (rs : list Activity) : outcome exn Z :=
  if decide (next_id rs ≤ int64_max)%Z then Ok (next_id rs)
  else Exc (OperationalError "database or disk is full").

Definition with_keys (key ca : value) (a : Activity) : Activity :=
  mk_Activity key (name a) (description a) (time a) (category a) ca (updated_at a).

(** [INSERT INTO activities ...] for one instance. *)
Definition insert_row (clk : Z) (rs : list Activity) (a : Activity)
  : outcome exn (list Activity) :=
  if bool_decide (name a = VNone) then
    Exc (IntegrityError "NOT NULL constraint failed: activities.name")
  else if bool_decide (time a = VNone) then
    Exc (IntegrityError "NOT NULL constraint failed: activities.time")
  else
    match id a with
    | VNone =>
        match auto_key rs with
        | Ok k => Ok (rs ++ [with_keys (VInt k)
                               (if bool_decide (created_at a = VNone) then VInt clk else created_at a) a])
        | Exc e => Exc e
        end
    | VInt z =>
        if bool_decide (VInt z ∈ row_ids rs) then
          Exc (IntegrityError "UNIQUE constraint failed: activities.id")
        else Ok (rs ++ [with_keys (VInt z)
                          (if bool_decide (created_at a = VNone) then VInt clk else created_at a) a])
    | _ => Exc (IntegrityError "datatype mismatch")
    end.

(** The flush: insert the pending objects in the order they were added. *)
Fixpoint flush_rows (clk : Z) (rs : list Activity) (ps : list Activity)
  : outcome exn (list Activity) :=
  match ps with
  | [] => Ok rs
  | a :: ps' =>
      match insert_row clk rs a with
      | Ok rs' => flush_rows clk rs' ps'
      | Exc e => Exc e
      end
  end.

(** [db.commit()] *)
Definition session_commit : DbM unit :=
  λ d, match flush_rows (clock d) (rows d) (pending d) with
       | Ok rs => (Ok tt, mk_db rs [] (clock d))
       | Exc e => (Exc e, mk_db (rows d) [] (clock d))
       end.

(** [db.add(activity)] *)
Definition session_add (a : Activity) : DbM unit :=
  st_modify (λ d, mk_db (rows d) (pending d ++ [a]) (clock d)).

(** [db.close()]: objects never committed are discarded. *)
Definition session_close : DbM unit :=
  st_modify (λ d, mk_db (rows d) [] (clock d)).

(** [db.query(Activity).count()] *)
Definition query_count : DbM nat := st_gets (λ d, length (rows d)).

(** [db.query(Activity).all()] *)
Definition query_all : DbM (list Activity) := st_gets rows.

(** [db.query(Activity).filter(Activity.name == n).first()]: SQLite's
    [=] on text is exact and case-sensitive. *)
Definition query_first_by_name (n : string) : DbM (option Activity) :=
  st_gets (λ d, List.find (λ a, bool_decide (name a = VStr n)) (rows d)).

(** ** Keys *)

Lemma max_id_ge (rs : list Activity) a z :
  a ∈ rs → id a = VInt z → from_option (λ m, z ≤ m)%Z False (max_id rs).
Proof.
  induction rs as [|b rs IH]; intros Ha Hz; [by apply not_elem_of_nil in Ha|].
  simpl. apply elem_of_cons in Ha as [->|Ha].
  - rewrite Hz. simpl. destruct (max_id rs); simpl; lia.
  - specialize (IH Ha Hz). destruct (max_id rs); [|done]. destruct (id b); simpl in *; lia.
Qed.

(** SQLite's next automatic key is not in use. *)
Lemma next_id_fresh (rs : list Activity) : VInt (next_id rs) ∉ row_ids rs.
Proof.
  unfold row_ids. intros (a & Ha & Hin)%list_elem_of_fmap.
  pose proof (max_id_ge rs a _ Hin (eq_sym Ha)). unfold next_id in *.
  destruct (max_id rs); simpl in *; lia.
Qed.

Lemma auto_key_Ok rs k : auto_key rs = Ok k → k = next_id rs ∧ (k ≤ int64_max)%Z.
Proof. unfold auto_key. case_decide; [by intros [= <-]|done]. Qed.

Lemma max_id_snoc (rs : list Activity) a z :
  id a = VInt z → max_id (rs ++ [a]) = Some (from_option (Z.max z) z (max_id rs)).
Proof.
  intros Hz. unfold max_id. rewrite foldr_app. simpl. rewrite Hz.
  induction rs as [|b rs IH]; [done|]. simpl. rewrite IH.
  destruct (id b); try done. simpl. f_equal.
  destruct (foldr _ None rs); simpl; lia.
Qed.

(** ** Inserting rows *)

(** The outcome of an insert: the row appended with its key. *)
Lemma insert_row_Ok clk rs a rs' :
  insert_row clk rs a = Ok rs' →
  ∃ z, rs' = rs ++ [with_keys (VInt z)
                      (if bool_decide (created_at a = VNone) then VInt clk else created_at a) a]
     ∧ (VInt z ∉ row_ids rs) ∧ name a ≠ VNone ∧ time a ≠ VNone
     ∧ (id a = VNone → z = next_id rs) ∧ (id a ≠ VNone → id a = VInt z).
Proof.
  unfold insert_row. do 2 (case_bool_decide; [done|]).
  destruct (id a) eqn:Hid; try done.
  - destruct (auto_key rs) as [k|] eqn:Hk; [|done]. apply auto_key_Ok in Hk as [-> _].
    intros [= <-]. eexists. split_and!; [done|apply next_id_fresh|done|done|done|done].
  - case_bool_decide; [done|]. intros [= <-]. eexists. split_and!; done.
Qed.

(** ** The session *)

Lemma session_add_rows_frame a : frame rows (session_add a).
Proof. by intros d. Qed.

Lemma session_close_rows_frame : frame rows session_close.
Proof. by intros d. Qed.

Lemma query_count_readonly : readonly query_count.
Proof. apply readonly_gets. Qed.

Lemma query_all_readonly : readonly query_all.
Proof. apply readonly_gets. Qed.

Lemma query_first_by_name_readonly n : readonly (query_first_by_name n).
Proof. apply readonly_gets. Qed.

Lemma find_name_None (rs : list Activity) n :
  List.find (λ a, bool_decide (name a = VStr n)) rs = None ↔
  ¬ Exists (λ a, name a = VStr n) rs.
Proof.
  induction rs as [|b rs IH]; simpl.
  - split; [intros _ H; inversion H|done].
  - rewrite Exists_cons. case_bool_decide; [naive_solver|]. rewrite IH. naive_solver.
Qed.

(** An object ready for insertion: no key and no creation time of its
    own, and both [NOT NULL] columns given, as every instance the app
    builds from its seed dicts. *)
Definition fresh_object (a : Activity) : Prop :=
  id a = VNone ∧ created_at a = VNone ∧ name a ≠ VNone ∧ time a ≠ VNone.

Lemma insert_row_fresh clk rs a :
  fresh_object a → (next_id rs ≤ int64_max)%Z →
  insert_row clk rs a = Ok (rs ++ [with_keys (VInt (next_id rs)) (VInt clk) a]).
Proof.
  intros (Hid & Hca & Hn & Ht) Hb. unfold insert_row, auto_key.
  rewrite !bool_decide_eq_false_2 by done. rewrite Hid, decide_True by done.
  by rewrite bool_decide_eq_true_2.
Qed.

Lemma next_id_fresh_snoc rs clk a :
  next_id (rs ++ [with_keys (VInt (next_id rs)) (VInt clk) a]) = (next_id rs + 1)%Z.
Proof.
  unfold next_id at 1. rewrite (max_id_snoc _ _ (next_id rs)) by done.
  unfold next_id. destruct (max_id rs); simpl; lia.
Qed.

Lemma flush_rows_fresh clk rs ps :
  Forall fresh_object ps → (next_id rs + Z.of_nat (length ps) ≤ int64_max + 1)%Z →
  flush_rows clk rs ps =
    Ok (rs ++ imap (λ i a, with_keys (VInt (next_id rs + Z.of_nat i)) (VInt clk) a) ps).
Proof.
  intros Hps. revert rs. induction Hps as [|a ps Ha Hps IH]; intros rs Hb; simpl.
  - by rewrite app_nil_r.
  - simpl in Hb. rewrite insert_row_fresh by (done || lia).
    rewrite IH by (rewrite next_id_fresh_snoc; lia).
    rewrite <-app_assoc, Z.add_0_r. do 3 f_equal.
    apply imap_ext. intros i b _. simpl. rewrite next_id_fresh_snoc. do 2 f_equal. lia.
Qed.

(** C15: a commit of objects without keys inserts them in the order
    they were added, with the consecutive keys [max + 1], [max + 2], ...
    after the largest key of the table (from 1 in an empty table), and
    stamps each with the clock, as long as the keys stay in SQLite's
    64-bit range. *)
Theorem session_commit_keys d :
  Forall fresh_object (pending d) →
  (next_id (rows d) + Z.of_nat (length (pending d)) ≤ int64_max + 1)%Z →
  session_commit d =
    (Ok tt, mk_db (rows d ++ imap (λ i a, with_keys (VInt (next_id (rows d) + Z.of_nat i))
                                                    (VInt (clock d)) a) (pending d))
                  [] (clock d)).
Proof. intros Hps Hb. unfold session_commit. by rewrite flush_rows_fresh. Qed.

Lemma session_commit_keys_witness :
  Forall fresh_object (pending (mk_db [] [mk_Activity VNone (VStr "Chess Club") VNone (VStr "Fri") VNone VNone VNone] 7)) ∧
  (next_id (rows (mk_db [] [mk_Activity VNone (VStr "Chess Club") VNone (VStr "Fri") VNone VNone VNone] 7)) +
     Z.of_nat (length (pending (mk_db [] [mk_Activity VNone (VStr "Chess Club") VNone (VStr "Fri") VNone VNone VNone] 7)))
   ≤ int64_max + 1)%Z ∧
  session_commit (mk_db [] [mk_Activity VNone (VStr "Chess Club") VNone (VStr "Fri") VNone VNone VNone] 7) =
    (Ok tt, mk_db ([] ++ imap (λ i a, with_keys (VInt (next_id [] + Z.of_nat i)) (VInt 7) a)
                             [mk_Activity VNone (VStr "Chess Club") VNone (VStr "Fri") VNone VNone VNone])
                  [] 7).
Proof.
  assert (Forall fresh_object [mk_Activity VNone (VStr "Chess Club") VNone (VStr "Fri") VNone VNone VNone]) as H.
  { repeat constructor; discriminate. }
  assert (next_id [] + Z.of_nat 1 ≤ int64_max + 1)%Z as Hb by (vm_compute; discriminate).
  split_and!; [exact H|exact Hb|exact (session_commit_keys (mk_db [] _ 7) H Hb)].
Defined.

End Db.

#[export] Hint Resolve Db.query_count_readonly Db.query_all_readonly Db.query_first_by_name_readonly
  Db.session_add_rows_frame Db.session_close_rows_frame : st_inv.
