(* ===== verification/App.v ===== *)
(** * The application module ([src/src/app.py])

    The world of the application is the Python state (heap and module
    globals) together with the database.  [module_init] is the import of
    [app.py]: it evaluates the list literal [initial_activities] (nine
    dicts on the heap) and binds the module's names.  [init_db],
    [startup_event] and the four endpoint functions follow the source
    statement by statement: every subscript, membership test, method call
    and global lookup goes through the operations of [PyCore], so a
    subscript of an ORM instance or a lookup of an undefined global
    raises what CPython raises.  [get_db] is the session dependency of
    [models/__init__.py] (spec-modelled). *)

From S2P Require Import Prelude PyCore Activity Database.

Local Open Scope string_scope.
Local Open Scope list_scope.

Module App.

Import Py Model Db.

Record world := mk_world {
  py : pystate;
  db : dbstate
}.

Abbreviation AppM := (st world exn).

Definition liftPy {A} (m : PyM A) : AppM A :=
  zoom py (λ p w, mk_world p (db w)) m.

Definition liftDb {A} (m : DbM A) : AppM A :=
  zoom db (λ d w, mk_world (py w) d) m.

Definition lift_outcome {A} (o : outcome exn A) : AppM A :=
  match o with Ok a => mret a | Exc e => mthrow e end.

(** What an endpoint function returns: a value FastAPI encodes as JSON,
    or a [RedirectResponse]. *)
Inductive reply :=
  | RJson (body : json)
  | RRedirect (url : string) (status_code : Z).

(** ** Module initialisation *)

(** [initial_activities]: the list literal of nine dicts. *)
Definition initial_activities : list (list (string * string)) := [
  [("name", "Chess Club");
   ("description", "Learn strategies and compete in chess tournaments");
   ("time", "Fridays, 3:30 PM - 5:00 PM");
   ("category", "Academic")];
  [("name", "Programming Class");
   ("description", "Learn programming fundamentals and build software projects");
   ("time", "Tuesdays and Thursdays, 3:30 PM - 4:30 PM");
   ("category", "Academic")];
  [("name", "Gym Class");
   ("description", "Physical education and sports activities");
   ("time", "Mondays, Wednesdays, Fridays, 2:00 PM - 3:00 PM");
   ("category", "Sports")];
  [("name", "Soccer Team");
   ("description", "Join the school soccer team and compete in matches");
   ("time", "Tuesdays and Thursdays, 4:00 PM - 5:30 PM");
   ("category", "Sports")];
  [("name", "Basketball Team");
   ("description", "Practice and play basketball with the school team");
   ("time", "Wednesdays and Fridays, 3:30 PM - 5:00 PM");
   ("category", "Sports")];
  [("name", "Art Club");
   ("description", "Explore your creativity through painting and drawing");
   ("time", "Thursdays, 3:30 PM - 5:00 PM");
   ("category", "Arts")];
  [("name", "Drama Club");
   ("description", "Act, direct, and produce plays and performances");
   ("time", "Mondays and Wednesdays, 4:00 PM - 5:30 PM");
   ("category", "Arts")];
  [("name", "Math Club");
   ("description", "Solve challenging problems and participate in math competitions");
   ("time", "Tuesdays, 3:30 PM - 4:30 PM");
   ("category", "Academic")];
  [("name", "Debate Team");
   ("description", "Develop public speaking and argumentation skills");
   ("time", "Fridays, 4:00 PM - 5:30 PM");
   ("category", "Academic")]
].

(** A dict literal with string keys and values. *)
Definition dict_literal (d : list (string * string)) : obj :=
  ODict ((λ kv, (VStr kv.1, VStr kv.2)) <$> d).

Definition set_global (x : string) (v : value) (s : pystate) : pystate :=
  mk_pystate (heap s) (next_loc s) (<[x := v]> (globals s)).

(** Evaluate a list of expressions left to right. *)
Fixpoint alloc_all (os : list obj) : PyM (list value) :=
  match os with
  | [] => mret []
  | o :: os' => v ← alloc o; vs ← alloc_all os'; mret (v :: vs)
  end.

(** The names [app.py] binds besides [initial_activities], with the
    kind of object each is bound to. *)
Definition module_names : list (string * string) := [
  ("FastAPI", "type"); ("HTTPException", "type"); ("Depends", "function");
  ("StaticFiles", "type"); ("RedirectResponse", "type"); ("os", "module");
  ("Path", "type"); ("Session", "type"); ("get_db", "function");
  ("Base", "DeclarativeMeta"); ("engine", "Engine");
  ("Activity", "DeclarativeMeta"); ("app", "FastAPI");
  ("current_dir", "PosixPath"); ("init_db", "function"); ("root", "function");
  ("startup_event", "function"); ("get_activities", "function");
  ("signup_for_activity", "function"); ("unregister_from_activity", "function")].

(** Importing [app.py]: the imports, [app], [current_dir], the list
    [initial_activities] and the [def]s.  ([Base.metadata.create_all]
    creates the table, which the database state always has; mounting
    the static files directory is routing, see [Api].) *)
Definition module_init : PyM unit :=
  ds ← alloc_all (dict_literal <$> initial_activities);
  lst ← alloc (OList ds);
  st_modify (λ s,
    foldr (λ nk s, set_global nk.1 (VOpaque nk.2) s)
      (set_global "initial_activities" lst s) module_names).

(** ** [init_db] and [startup_event] *)

(** [for x in c]: the items of a list (the loop bodies of the app do not
    modify the list they iterate over). *)
Definition iter_items (c : value) : PyM (list value) :=
  match c with
  | VRef l =>
      o ← load l;
      match o with
      | OList xs => mret xs
      | _ => ty ← type_of c; mthrow (TypeError ("'" +:+ ty +:+ "' object is not iterable"))
      end
  | _ => ty ← type_of c; mthrow (TypeError ("'" +:+ ty +:+ "' object is not iterable"))
  end.

(** The keyword arguments of a call [f( **d)]. *)
Definition kwargs_of (d : value) : PyM (list (string * value)) :=
  let not_mapping :=
    ty ← type_of d;
    mthrow (TypeError ("Activity() argument after ** must be a mapping, not " +:+ ty)) in
  match d with
  | VRef l =>
      o ← load l;
      match o with
      | ODict items =>
          match mapM (λ kv, match kv.1 with VStr k => Some (k, kv.2) | _ => None end) items with
          | Some kw => mret kw
          | None => mthrow (TypeError "keywords must be strings")
          end
      | _ => not_mapping
      end
  | _ => not_mapping
  end.

(** The body of the loop of [init_db]:
    [activity = Activity( **activity_data)] and [db.add(activity)]. *)
Definition init_db_add (activity_data : value) : AppM unit :=
  kw ← liftPy (kwargs_of activity_data);
  tyname ← liftPy (st_gets (λ s, type_name (heap s)));
  activity ← lift_outcome (Activity_new tyname kw);
  liftDb (session_add activity).

(** [init_db(db)] *)
Definition init_db : AppM unit :=
  n ← liftDb query_count;
  if decide (n = 0%nat) then
    data ← liftPy (load_global "initial_activities");
    items ← liftPy (iter_items data);
    _ ← st_iter init_db_add items;
    liftDb session_commit
  else mret tt.

(** [get_db()] up to its [yield]: a new session, with nothing pending. *)
Definition open_session : AppM unit := liftDb session_close.

(** [startup_event()]: [db = next(get_db())].  Nothing keeps the
    generator once [next] returns, so CPython finalizes it at once: its
    [finally: db.close()] runs before [init_db(db)], which then uses the
    closed session (SQLAlchemy sessions can be used again after
    [close]). *)
Definition startup_event : AppM unit :=
  _ ← open_session;
  _ ← liftDb session_close;
  init_db.

(** [Depends(get_db)] around an endpoint: the session is opened before
    the call and closed afterwards, also when the call raises. *)
Definition get_db {A} (body : AppM A) : AppM A :=
  _ ← open_session;
  let run : AppM A := r ← body; _ ← liftDb session_close; mret r in
  let cleanup (e : exn) : AppM A := _ ← liftDb session_close; mthrow e in
  st_catch run cleanup.

(** How [get_db] runs its body: the session is opened, the body runs,
    the session is closed on both exits. *)
Lemma get_db_run {A} (body : AppM A) w :
  get_db body w =
    match body (open_session w).2 with
    | (Ok r, w') => (Ok r, (liftDb session_close w').2)
    | (Exc e, w') => (Exc e, (liftDb session_close w').2)
    end.
Proof.
  unfold get_db, st_catch. st_norm. simpl.
  destruct (body _) as [[r|e] w']; reflexivity.
Qed.

(** ** The endpoints *)

(** [root()] *)
Definition root : AppM reply := mret (RRedirect "/static/index.html" 307).

(** [get_activities(db)] *)
Definition get_activities : AppM reply :=
  activities ← liftDb query_all;
  mret (RJson (JList (to_dict <$> activities))).

(** The result of [.first()] as a Python value: [None], or a fresh
    instance of [Activity] in the session's identity map. *)
Definition load_instance (row : option Activity) : AppM value :=
  match row with
  | None => mret VNone
  | Some a => liftPy (alloc (OInstance "Activity" (activity_attrs a)))
  end.

(** Lines 122-131 of [signup_for_activity], on the value bound to
    [activity]. *)
Definition signup_checks (activity : value) (activity_name email : string) : PyM reply :=
  participants ← getitem activity (VStr "participants");
  registered ← contains (VStr email) participants;
  if (registered : bool) then
    mthrow (HTTPException 400 "Student is already signed up")
  else
    participants' ← getitem activity (VStr "participants");
    _ ← list_append participants' (VStr email);
    mret (RJson (JObj [("message", JStr ("Signed up " +:+ email +:+ " for " +:+ activity_name))])).

(** [signup_for_activity(activity_name, email, db)] *)
Definition signup_for_activity (activity_name email : string) : AppM reply :=
  row ← liftDb (query_first_by_name activity_name);
  activity ← load_instance row;
  found ← liftPy (truthy activity);
  if negb found then
    mthrow (HTTPException 404 "Activity not found")
  else
    liftPy (signup_checks activity activity_name email).

(** [unregister_from_activity(activity_name, email)]: no session; the
    body reads the module global [activities]. *)
Definition unregister_from_activity (activity_name email : string) : PyM reply :=
  activities ← load_global "activities";
  known ← contains (VStr activity_name) activities;
  if negb known then
    mthrow (HTTPException 404 "Activity not found")
  else
    activity ← getitem activities (VStr activity_name);
    participants ← getitem activity (VStr "participants");
    registered ← contains (VStr email) participants;
    if negb registered then
      mthrow (HTTPException 400 "Student is not signed up for this activity")
    else
      participants' ← getitem activity (VStr "participants");
      _ ← list_remove participants' (VStr email);
      mret (RJson (JObj [("message", JStr ("Unregistered " +:+ email +:+ " from " +:+ activity_name))])).

(** ** The initial world *)

(** A fresh interpreter, and the process before startup: [app.py]
    imported, the table empty, the server clock at [clk]. *)
Definition py0 : pystate := mk_pystate ∅ 1%positive ∅.

Definition boot (clk : Z) : world := mk_world (module_init py0).2 (mk_db [] [] clk).

(** The row the startup inserts for the [i]-th seed dict. *)
Definition seed_field (k : string) (d : list (string * string)) : value :=
  match assoc_lookup k d with Some v => VStr v | None => VNone end.

Definition seeded_row (clk : Z) (i : nat) (d : list (string * string)) : Activity :=
  mk_Activity (VInt (Z.of_nat (S i))) (seed_field "name" d) (seed_field "description" d)
    (seed_field "time" d) (seed_field "category" d) (VInt clk) VNone.

(** The seed dicts [init_db] can turn into rows: distinct keys, each a
    column [Activity] takes as a keyword, and both [NOT NULL] columns
    given. *)
Definition seed_keys : list string := ["name"; "description"; "time"; "category"].

Definition seed_ok (d : list (string * string)) : Prop :=
  NoDup d.*1 ∧ Forall (λ k, k ∈ seed_keys) d.*1 ∧ "name" ∈ d.*1 ∧ "time" ∈ d.*1.

(** The global [initial_activities] is bound to a list whose items are
    dicts with the pairs [ds]. *)
Definition seeds_at (s : pystate) (ds : list (list (string * string))) : Prop :=
  ∃ l ls, globals s !! "initial_activities" = Some (VRef l) ∧
    heap s !! l = Some (OList (VRef <$> ls)) ∧
    Forall2 (λ li d, heap s !! li = Some (dict_literal d)) ls ds.

(** The instance [Activity( **d)] builds from a seed dict. *)
Definition seed_object (d : list (string * string)) : Activity :=
  mk_Activity VNone (seed_field "name" d) (seed_field "description" d)
    (seed_field "time" d) (seed_field "category" d) VNone VNone.

(** ** Running the lifted computations *)

Section Lifting.
Implicit Types (w : world).

Lemma run_liftDb_bind {A B} (m : DbM A) (k : A → AppM B) w :
  (x ← liftDb m; k x) w =
  match m (db w) with
  | (Ok a, d') => k a (mk_world (py w) d')
  | (Exc e, d') => (Exc e, mk_world (py w) d')
  end.
Proof. unfold liftDb. st_norm. destruct (m (db w)) as [[a|e] d']; reflexivity. Qed.

Lemma run_liftPy_bind {A B} (m : PyM A) (k : A → AppM B) w :
  (x ← liftPy m; k x) w =
  match m (py w) with
  | (Ok a, p') => k a (mk_world p' (db w))
  | (Exc e, p') => (Exc e, mk_world p' (db w))
  end.
Proof. unfold liftPy. st_norm. destruct (m (py w)) as [[a|e] p']; reflexivity. Qed.

Lemma run_liftPy w {A} (m : PyM A) :
  liftPy m w = ((m (py w)).1, mk_world (m (py w)).2 (db w)).
Proof. unfold liftPy. st_norm. destruct (m (py w)); reflexivity. Qed.

(** Python code does not touch the database. *)
Lemma liftPy_db {A} (m : PyM A) w : db (liftPy m w).2 = db w.
Proof. by rewrite run_liftPy. Qed.

Lemma lift_outcome_readonly {A} (o : outcome exn A) : readonly (lift_outcome o).
Proof. destruct o; by intros w. Qed.

Lemma liftDb_readonly {A} (m : DbM A) : readonly m → readonly (liftDb m).
Proof. intros Hm w. unfold liftDb. st_norm. specialize (Hm (db w)). destruct (m (db w)). simpl in *. by subst; destruct w. Qed.
Lemma liftPy_frame_db {T} (f : dbstate → T) {A} (m : PyM A) : frame (f ∘ db) (liftPy m).
Proof. intros w. simpl. by rewrite liftPy_db. Qed.

Lemma liftPy_frame_py {T} (f : pystate → T) {A} (m : PyM A) :
  frame f m → frame (f ∘ py) (liftPy m).
Proof. intros Hm w. simpl. rewrite run_liftPy. apply Hm. Qed.

Lemma liftDb_frame_py {T} (f : pystate → T) {A} (m : DbM A) : frame (f ∘ py) (liftDb m).
Proof. intros w. unfold liftDb. st_norm. by destruct (m (db w)). Qed.

Lemma liftDb_frame_db {T} (f : dbstate → T) {A} (m : DbM A) :
  frame f m → frame (f ∘ db) (liftDb m).
Proof.
  intros Hm w. specialize (Hm (db w)). unfold liftDb. st_norm.
  destruct (m (db w)). simpl in *. done.
Qed.
End Lifting.

#[export] Hint Resolve lift_outcome_readonly
  liftDb_readonly liftPy_frame_db liftPy_frame_py liftDb_frame_py liftDb_frame_db
  : st_inv.

(** ** signup_for_activity *)

(** Subscripting the ORM instance fails before anything is mutated. *)
Lemma signup_checks_instance s l attrs n e :
  heap s !! l = Some (OInstance "Activity" attrs) →
  signup_checks (VRef l) n e s = (Exc (not_subscriptable "Activity"), s).
Proof.
  intros Hl. unfold signup_checks.
  by rewrite (run_bind_exc _ _ _ _ _ (getitem_instance _ _ _ _ _ Hl)).
Qed.

(** The outcome of [signup_for_activity] in every world. *)
Lemma signup_for_activity_outcome w n e :
  (signup_for_activity n e w).1 =
    Exc (if bool_decide (Exists (λ a, name a = VStr n) (rows (db w)))
         then not_subscriptable "Activity"
         else HTTPException 404 "Activity not found").
Proof.
  unfold signup_for_activity. rewrite run_liftDb_bind.
  unfold query_first_by_name, st_gets. cbv beta iota.
  destruct (List.find _ (rows (db w))) as [a|] eqn:Hf.
  - rewrite bool_decide_eq_true_2.
    2:{ apply Exists_exists. apply List.find_some in Hf as [Hin Hn%bool_decide_eq_true].
        exists a. split; [by apply list_elem_of_In|done]. }
    unfold load_instance. rewrite run_liftPy_bind, run_alloc. cbv beta iota.
    rewrite run_liftPy_bind, (truthy_instance _ _ "Activity" (activity_attrs a))
      by apply lookup_insert_eq.
    cbv beta iota. cbn [negb]. rewrite run_liftPy.
    by rewrite (signup_checks_instance _ _ (activity_attrs a)) by apply lookup_insert_eq.
  - rewrite bool_decide_eq_false_2 by by apply find_name_None. done.
Qed.

Lemma liftPy_frame_db_all {A} (m : PyM A) : frame db (liftPy m).
Proof. intros w. apply liftPy_db. Qed.

Lemma liftDb_readonly_db {A} (m : DbM A) : readonly m → frame db (liftDb m).
Proof. intros Hm w. unfold liftDb. st_norm. specialize (Hm (db w)). by destruct (m (db w)). Qed.

#[export] Hint Resolve liftPy_frame_db_all liftDb_readonly_db : st_inv.

Lemma signup_for_activity_db n e : frame db (signup_for_activity n e).
Proof. unfold signup_for_activity, load_instance. solve_st_inv. Qed.

(** C1: [signup_for_activity] never succeeds.  On an unknown name it
    raises the 404 [HTTPException]; on every name of the table it raises
    [TypeError: 'Activity' object is not subscriptable], because
    [.first()] returns an ORM instance, which has no [__getitem__].  The
    database is left unchanged either way. *)
Theorem signup_for_activity_raises w n e :
  (signup_for_activity n e w).1 =
    Exc (if bool_decide (Exists (λ a, name a = VStr n) (rows (db w)))
         then not_subscriptable "Activity"
         else HTTPException 404 "Activity not found")
  ∧ db (signup_for_activity n e w).2 = db w.
Proof. split; [apply signup_for_activity_outcome|apply signup_for_activity_db]. Qed.

(** ** unregister_from_activity *)

(** C2: as written, [unregister_from_activity] raises [NameError] in any
    state whose module globals do not bind [activities]: the handler
    reads a global the module never defines. *)
Theorem unregister_from_activity_name_error s n e :
  globals s !! "activities" = None →
  unregister_from_activity n e s =
    (Exc (NameError "name 'activities' is not defined"), s).
Proof. intros H. unfold unregister_from_activity. by rewrite load_global_undefined. Qed.

Lemma unregister_from_activity_name_error_witness :
  unregister_from_activity "Chess Club" "a@b.com" (module_init py0).2 =
    (Exc (NameError "name 'activities' is not defined"), (module_init py0).2).
Proof. apply unregister_from_activity_name_error. vm_compute. reflexivity. Defined.

(** ** Seeding *)

(** The module binds no global named [activities]. *)
Lemma module_init_no_activities : globals (module_init py0).2 !! "activities" = None.
Proof. vm_compute. reflexivity. Qed.

(** The rows and the globals after startup. *)
Lemma startup_event_rows clk :
  rows (db (startup_event (boot clk)).2) = imap (seeded_row clk) initial_activities.
Proof. vm_compute. reflexivity. Qed.

Lemma startup_event_globals clk :
  globals (py (startup_event (boot clk)).2) = globals (module_init py0).2.
Proof. vm_compute. reflexivity. Qed.

(** C14: [init_db] does nothing when the table has rows, so the seed
    data is loaded only into an empty table. *)
Theorem init_db_nonempty w : rows (db w) ≠ [] → init_db w = (Ok tt, w).
Proof.
  intros Hne. unfold init_db. rewrite run_liftDb_bind. unfold query_count, st_gets.
  cbv beta iota. rewrite decide_False.
  - by destruct w.
  - intros Hl. apply Hne. by apply length_zero_iff_nil.
Qed.

Lemma init_db_nonempty_witness :
  init_db (startup_event (boot 0)).2 = (Ok tt, (startup_event (boot 0)).2).
Proof. apply init_db_nonempty. rewrite startup_event_rows. discriminate. Defined.

(** ** Seeding an empty table *)

Lemma kwargs_of_dict s li d :
  heap s !! li = Some (dict_literal d) →
  kwargs_of (VRef li) s = (Ok ((λ kv, (kv.1, VStr kv.2)) <$> d), s).
Proof.
  intros Hl. unfold kwargs_of. rewrite (run_load_bind _ _ _ _ Hl). unfold dict_literal.
  assert (∀ d' : list (string * string),
    mapM (λ kv : value * value, match kv.1 with VStr k => Some (k, kv.2) | _ => None end)
      ((λ kv, (VStr kv.1, VStr kv.2)) <$> d') = Some ((λ kv, (kv.1, VStr kv.2)) <$> d')) as ->.
  { intros d'. apply mapM_Some_2. rewrite Forall2_fmap. apply Forall_Forall2_diag.
    by apply Forall_forall. }
  reflexivity.
Qed.

(** One turn of the loop on a seed dict: the instance of its columns
    is added to the session. *)
Lemma init_db_add_seed w li d :
  heap (py w) !! li = Some (dict_literal d) → seed_ok d →
  init_db_add (VRef li) w =
    (Ok tt, mk_world (py w) (mk_db (rows (db w)) (pending (db w) ++ [seed_object d]) (clock (db w)))).
Proof.
  intros Hl (Hnd & Hk & _). unfold init_db_add.
  rewrite run_liftPy_bind, (kwargs_of_dict _ _ d) by done. rewrite run_liftPy_bind. cbn [py st_gets].
  unfold Activity_new. rewrite Activity_new_from_strs by done. by destruct w.
Qed.

Lemma init_db_loop p r pd c ls ds :
  Forall2 (λ li d, heap p !! li = Some (dict_literal d)) ls ds → Forall seed_ok ds →
  st_iter init_db_add (VRef <$> ls) (mk_world p (mk_db r pd c)) =
    (Ok tt, mk_world p (mk_db r (pd ++ (seed_object <$> ds)) c)).
Proof.
  induction 1 as [|li d ls ds Hl _ IH] in pd |- *; intros Hs.
  - simpl. by rewrite app_nil_r.
  - apply Forall_cons in Hs as [Hd Hs]. cbn [fmap list_fmap st_iter].
    rewrite run_bind, (init_db_add_seed _ li d) by done. simpl. rewrite IH by done. by rewrite <-app_assoc.
Qed.

Lemma seed_object_fresh d : seed_ok d → fresh_object (seed_object d).
Proof.
  intros (_ & _ & Hn & Ht). unfold seed_object, seed_field.
  split_and!; [done|done|..]; cbn [name time].
  - destruct (assoc_lookup "name" d) eqn:E; [done|]. by apply assoc_lookup_None in E.
  - destruct (assoc_lookup "time" d) eqn:E; [done|]. by apply assoc_lookup_None in E.
Qed.

Lemma seeded_row_keys clk ds :
  imap (λ i a, with_keys (VInt (next_id [] + Z.of_nat i)) (VInt clk) a) (seed_object <$> ds) =
  imap (seeded_row clk) ds.
Proof.
  rewrite imap_fmap. apply imap_ext. intros i d _. unfold seeded_row, with_keys. simpl.
  assert (next_id [] = 1%Z) as -> by reflexivity. do 2 f_equal. lia.
Qed.

(** C13: on an empty table, [init_db] turns every dict of the list
    bound to [initial_activities] into a row, in list order, with the
    keys 1, 2, ..., the dict's columns and the clock as [created_at],
    and commits them; the Python state is left as it was.  This holds for
    every list of dicts whose keys are distinct columns including [name]
    and [time], not only for the nine of [app.py]. *)
Theorem init_db_seeds w ds :
  seeds_at (py w) ds → Forall seed_ok ds → rows (db w) = [] → pending (db w) = [] →
  (Z.of_nat (length ds) ≤ int64_max)%Z →
  init_db w =
    (Ok tt, mk_world (py w) (mk_db (imap (seeded_row (clock (db w))) ds) [] (clock (db w)))).
Proof.
  intros (l & ls & Hg & Hl & Hf) Hs Hr Hp Hb.
  destruct w as [p [r pd c]]. cbn [py db rows pending clock] in *. subst r pd.
  unfold init_db. rewrite run_liftDb_bind. cbn [query_count st_gets db rows length].
  rewrite decide_True by done. rewrite run_liftPy_bind. cbn [py db].
  assert (load_global "initial_activities" p = (Ok (VRef l), p)) as ->
    by (unfold load_global; rewrite run_bind, run_gets; cbv beta iota; unfold Datatypes.id; by rewrite Hg).
  rewrite run_liftPy_bind. cbn [py db].
  assert (iter_items (VRef l) p = (Ok (VRef <$> ls), p)) as ->
    by (unfold iter_items; by rewrite (run_load_bind _ _ _ _ Hl)).
  rewrite run_bind, (init_db_loop _ _ _ _ ls ds) by done. unfold liftDb, zoom, session_commit. cbn.
  rewrite flush_rows_fresh.
  - by rewrite seeded_row_keys.
  - by apply Forall_fmap, (Forall_impl _ _ _ Hs), seed_object_fresh.
  - rewrite length_fmap. unfold next_id. simpl. lia.
Qed.

Lemma init_db_seeds_witness :
  init_db (boot 0) =
    (Ok tt, mk_world (py (boot 0)) (mk_db (imap (seeded_row 0) initial_activities) [] 0)).
Proof.
  apply (init_db_seeds (boot 0) initial_activities); [|decide_by_vm|reflexivity|reflexivity|vm_compute; discriminate].
  exists 10%positive, [1;2;3;4;5;6;7;8;9]%positive. split_and!; [reflexivity|reflexivity|decide_by_vm].
Defined.

(** ** What the endpoints never change *)

(** No endpoint changes the rows of the table or rebinds a global. *)
Lemma get_db_frame {T A} (f : world → T) (body : AppM A) :
  frame f open_session → frame f (liftDb session_close) → frame f body → frame f (get_db body).
Proof. intros Ho Hc Hb. unfold get_db. solve_st_inv. Qed.

Lemma get_activities_rows : frame (rows ∘ db) get_activities.
Proof. unfold get_activities. solve_st_inv. Qed.

Lemma load_instance_frame {T} (f : dbstate → T) row : frame (f ∘ db) (load_instance row).
Proof. unfold load_instance. solve_st_inv. Qed.

Lemma load_instance_globals row : frame (globals ∘ py) (load_instance row).
Proof. unfold load_instance. solve_st_inv. Qed.

Lemma signup_checks_globals v n e : frame globals (signup_checks v n e).
Proof. unfold signup_checks. solve_st_inv. Qed.

#[export] Hint Resolve get_activities_rows load_instance_frame load_instance_globals
  signup_checks_globals : st_inv.

Lemma signup_for_activity_rows n e : frame (rows ∘ db) (signup_for_activity n e).
Proof. unfold signup_for_activity. solve_st_inv. Qed.

Lemma signup_for_activity_globals n e : frame (globals ∘ py) (signup_for_activity n e).
Proof. unfold signup_for_activity. solve_st_inv. Qed.

Lemma unregister_from_activity_globals n e : frame globals (unregister_from_activity n e).
Proof. unfold unregister_from_activity. solve_st_inv. Qed.

Lemma get_activities_globals : frame (globals ∘ py) get_activities.
Proof. unfold get_activities. solve_st_inv. Qed.

#[export] Hint Resolve signup_for_activity_rows signup_for_activity_globals
  unregister_from_activity_globals get_activities_globals get_db_frame : st_inv.

End App.
