(* ===== verification/Api.v ===== *)
(** * The HTTP layer: FastAPI's routing and error handling around [app.py]

    A request is its method, its (percent-decoded) path and its
    (decoded) query parameters.  The router tries the routes in the order
    [app.py] registers them: the [/static] mount (line 25), then the four
    decorated endpoints.  A route whose path matches but whose method does
    not gives 405 with the [Allow] header of the first such route (a
    FastAPI route accepts exactly the methods it is declared with, so
    [HEAD] on a [GET] route is a 405 too); no match gives 404, after Starlette's
    attempt to redirect (307) to the path with its trailing slashes
    stripped or one added.  The
    parameters are extracted ([{activity_name}] is one non-empty path
    segment, [email] a required query parameter whose last occurrence
    counts, 422 when missing), the endpoint runs in the world monad, and
    its result or exception becomes the response: an [HTTPException]
    its status and [{"detail": ...}], anything else a 500.  The files
    under [static/] are not in the repository: the static mount is
    parameterised by the list of files it serves.

    [reachable] is the step relation of the server: startup of a freshly
    imported app, then any sequence of requests; the table keeps its
    seeded rows in every reachable state.  The
    static mount answers with the file named by the normalised rest of
    the path ([os.path.normpath]). *)

From Stdlib Require Import Ascii.
From S2P Require Import Prelude PyCore Activity Database App.

Local Open Scope string_scope.
Local Open Scope list_scope.

Module Api.

Import Py Model Db App.

Inductive method := GET | HEAD | POST | PUT | DELETE | PATCH | OPTIONS.

#[export] Instance method_eq_dec : EqDecision method.
Proof. solve_decision. Defined.

Record request := mk_request {
  req_method : method;
  req_path : string;
  req_query : list (string * string)
}.

Inductive body :=
  | BJson (j : json)
  | BText (t : string)
  | BFile (path : string)
  | BEmpty.

Record response := mk_response {
  status : Z;
  headers : list (string * string);
  resp_body : body
}.

(** ** Paths *)

(** The segments of a path after its leading slash ([str.split("/")]). *)
Fixpoint split_slash (s : string) : list string :=
  match s with
  | EmptyString => [""]
  | String c rest =>
      if decide (c = "/"%char) then "" :: split_slash rest
      else match split_slash rest with
           | p :: ps => String c p :: ps
           | [] => [String c EmptyString]
           end
  end.

(** A segment value: no slash inside. *)
Fixpoint slash_free (s : string) : bool :=
  match s with
  | EmptyString => true
  | String c rest => bool_decide (c ≠ "/"%char) && slash_free rest
  end.

Definition path_segments (p : string) : option (list string) :=
  match p with
  | String c rest => if decide (c = "/"%char) then Some (split_slash rest) else None
  | EmptyString => None
  end.

Inductive seg := Lit (s : string) | Param (x : string).

(** A path template against the segments of a path: a parameter
    matches one non-empty segment ([[^/]+]). *)
Fixpoint match_template (t : list seg) (ps : list string) : option (list (string * string)) :=
  match t, ps with
  | [], [] => Some []
  | Lit s :: t', p :: ps' => if decide (s = p) then match_template t' ps' else None
  | Param x :: t', p :: ps' =>
      if decide (p = "") then None else ((x, p) ::.) <$> match_template t' ps'
  | _, _ => None
  end.

(** ** Routes *)

Inductive endpoint := EpRoot | EpGetActivities | EpSignup | EpUnregister.

#[export] Instance endpoint_eq_dec : EqDecision endpoint.
Proof. solve_decision. Defined.

Inductive route :=
  | Mount (prefix : string)
  | Route (m : method) (template : list seg) (ep : endpoint).

(** [app.mount("/static", StaticFiles(...), name="static")] *)
Definition mount_static : route := Mount "static".

(** [@app.get("/")] *)
Definition route_root : route := Route GET [Lit ""] EpRoot.

(** [@app.get("/activities")] *)
Definition route_get_activities : route := Route GET [Lit "activities"] EpGetActivities.

(** [@app.post("/activities/{activity_name}/signup")] *)
Definition route_signup : route :=
  Route POST [Lit "activities"; Param "activity_name"; Lit "signup"] EpSignup.

(** [@app.delete("/activities/{activity_name}/unregister")] *)
Definition route_unregister : route :=
  Route DELETE [Lit "activities"; Param "activity_name"; Lit "unregister"] EpUnregister.

(** The routes in registration order. *)
Definition routes : list route :=
  [mount_static; route_root; route_get_activities; route_signup; route_unregister].

(** The methods a route accepts: FastAPI's [APIRoute] keeps the set of
    methods of its decorator ([{"GET"}] for [@app.get]); unlike
    Starlette's [Route] it does not add [HEAD] to a [GET] route. *)
Definition route_methods (m : method) : list method := [m].

Inductive route_match :=
  | MStatic (subpath : string)
  | MFull (ep : endpoint) (params : list (string * string))
  | MPartial (allowed : list method)
  | MNone.

#[export] Instance route_match_eq_dec : EqDecision route_match.
Proof. solve_decision. Defined.

(** [Mount("/static")] matches [/static/{path:path}] for every method. *)
Definition match_route (m : method) (ps : list string) (r : route) : route_match :=
  match r with
  | Mount prefix =>
      match ps with
      | p :: rest => if decide (p = prefix ∧ rest ≠ []) then MStatic (String.concat "/" rest) else MNone
      | [] => MNone
      end
  | Route m' t ep =>
      match match_template t ps with
      | Some params =>
          if decide (m ∈ route_methods m') then MFull ep params else MPartial (route_methods m')
      | None => MNone
      end
  end.

(** The first full match; otherwise the first route that matched the
    path only ([Match.PARTIAL]), which handles the request. *)
Fixpoint find_route (m : method) (ps : list string) (rs : list route) : route_match :=
  match rs with
  | [] => MNone
  | r :: rs' =>
      match match_route m ps r with
      | MNone => find_route m ps rs'
      | MPartial ms => match find_route m ps rs' with
                       | MNone | MPartial _ => MPartial ms
                       | full => full
                       end
      | full => full
      end
  end.

Definition dispatch (m : method) (path : string) : route_match :=
  match path_segments path with
  | Some ps => find_route m ps routes
  | None => MNone
  end.

(** ** Responses *)

Definition json_response (code : Z) (j : json) : response := mk_response code [] (BJson j).

Definition detail_response (code : Z) (detail : string) : response :=
  json_response code (JObj [("detail", JStr detail)]).

(** FastAPI's handler for [HTTPException], and Starlette's
    [ServerErrorMiddleware] for every other exception. *)
Definition method_name (m : method) : string :=
  match m with
  | GET => "GET" | HEAD => "HEAD" | POST => "POST" | PUT => "PUT"
  | DELETE => "DELETE" | PATCH => "PATCH" | OPTIONS => "OPTIONS"
  end.

(** [Route.handle] on a method it does not accept raises
    [HTTPException(405, headers={"Allow": ", ".join(self.methods)})].
    [self.methods] is a Python set, of one method for every route of
    the app. *)
Definition method_not_allowed (ms : list method) : response :=
  mk_response 405 [("allow", String.concat ", " (method_name <$> ms))]
    (BJson (JObj [("detail", JStr "Method Not Allowed")])).

Definition exn_response (e : exn) : response :=
  match e with
  | HTTPException code detail => detail_response code detail
  | _ => mk_response 500 [] (BText "Internal Server Error")
  end.

Definition reply_response (r : reply) : response :=
  match r with
  | RJson j => json_response 200 j
  | RRedirect url code => mk_response code [("location", url)] BEmpty
  end.

(** The 422 FastAPI sends when a required query parameter is missing. *)
Definition missing_query (x : string) : response :=
  json_response 422 (JObj [("detail", JList [JObj [
    ("type", JStr "missing"); ("loc", JList [JStr "query"; JStr x]);
    ("msg", JStr "Field required"); ("input", JNull)]])]).

(** A query parameter: its last occurrence. *)
Definition query_param (x : string) (q : list (string * string)) : option string :=
  assoc_lookup x (reverse q).

(** [os.path.normpath] of a relative path, on its segments: empty and
    [.] segments vanish; [..] removes the segment before it, unless there
    is none or that one is a [..] too, in which case it stays.  [acc]
    holds the segments kept so far, last first. *)
Fixpoint normpath_segs (acc ps : list string) : list string :=
  match ps with
  | [] => reverse acc
  | p :: ps' =>
      if decide (p = "" ∨ p = ".") then normpath_segs acc ps'
      else if decide (p = "..") then
        match acc with
        | q :: acc' => if decide (q = "..") then normpath_segs (p :: acc) ps'
                       else normpath_segs acc' ps'
        | [] => normpath_segs [p] ps'
        end
      else normpath_segs (p :: acc) ps'
  end.

(** [StaticFiles.get_path] and the directory check of [lookup_path]:
    the path below the directory that a request for [/static/<sub>]
    names.  [None] when the normalised path is the directory itself
    ([.], a directory, and the mount is not in [html] mode) or leaves
    it (starts with [..], which [os.path.commonpath] rejects); both
    are a 404. *)
Definition static_path (sub : string) : option string :=
  match normpath_segs [] (split_slash sub) with
  | [] => None
  | p :: ps => if decide (p = "..") then None else Some (String.concat "/" (p :: ps))
  end.

Section Serve.

(** The files of the [static] directory. *)
Variable static_files : list string.

(** [StaticFiles.get_response]: its [HTTPException]s for other methods
    and for missing files reach FastAPI's handler. *)
Definition serve_static (m : method) (subpath : string) : response :=
if decide (m = GET ∨ m = HEAD) then
  match static_path subpath with
  | Some f => if decide (f ∈ static_files) then mk_response 200 [] (BFile f)
              else detail_response 404 "Not Found"
  | None => detail_response 404 "Not Found"
  end
else detail_response 405 "Method Not Allowed".

(** Run an endpoint function and turn its outcome into the response. *)
Definition run_endpoint (call : AppM reply) : AppM response :=
st_catch (r ← call; mret (reply_response r)) (λ e, mret (exn_response e)).

Definition call_endpoint (ep : endpoint) (params q : list (string * string)) : AppM response :=
match ep with
| EpRoot => run_endpoint root
| EpGetActivities => run_endpoint (get_db get_activities)
| EpSignup =>
    match assoc_lookup "activity_name" params, query_param "email" q with
    | Some n, Some e => run_endpoint (get_db (signup_for_activity n e))
    | _, _ => mret (missing_query "email")
    end
| EpUnregister =>
    match assoc_lookup "activity_name" params, query_param "email" q with
    | Some n, Some e => run_endpoint (liftPy (unregister_from_activity n e))
    | _, _ => mret (missing_query "email")
    end
end.

Lemma run_endpoint_run (call : AppM reply) w :
run_endpoint call w =
  match call w with
  | (Ok r, w') => (Ok (reply_response r), w')
  | (Exc e, w') => (Ok (exn_response e), w')
  end.
Proof. unfold run_endpoint, st_catch. st_norm. by destruct (call w) as [[r|e] w']. Qed.

(** [path.rstrip("/")] *)
Fixpoint rstrip_slash (s : string) : string :=
  match s with
  | EmptyString => EmptyString
  | String c rest =>
      match rstrip_slash rest with
      | EmptyString => if decide (c = "/"%char) then EmptyString else String c EmptyString
      | r => String c r
      end
  end.

(** Starlette's alternative path: trailing slashes stripped, or one
    added. *)
Definition slash_alternative (path : string) : string :=
  match String.length path with
  | 0 => "/"
  | S k => if decide (String.get k path = Some "/"%char) then rstrip_slash path
           else path +:+ "/"
  end.

(** Starlette's router with [redirect_slashes]. *)
Definition serve (r : request) : AppM response :=
match dispatch (req_method r) (req_path r) with
| MStatic sub => mret (serve_static (req_method r) sub)
| MFull ep params => call_endpoint ep params (req_query r)
| MPartial ms => mret (method_not_allowed ms)
| MNone =>
    let alt := slash_alternative (req_path r) in
    if decide (req_path r ≠ "/" ∧ dispatch (req_method r) alt ≠ MNone) then
      mret (mk_response 307 [("location", alt)] BEmpty)
    else mret (detail_response 404 "Not Found")
end.

(** Serve a sequence of requests, one after the other. *)
(** The server: startup of the imported app, then requests in sequence. *)
Inductive reachable : world → Prop :=
| reachable_boot clk : reachable (startup_event (boot clk)).2
| reachable_serve w r : reachable w → reachable (serve r w).2.

End Serve.

(** ** Paths and dispatch *)

Lemma split_slash_free_app p rest :
  slash_free p = true → split_slash (p +:+ String "/" rest) = p :: split_slash rest.
Proof.
  induction p as [|c p IH]; simpl; [done|].
  intros [Hc%bool_decide_eq_true Hp]%andb_prop.
  rewrite decide_False by done. by rewrite IH.
Qed.

Lemma split_slash_free p : slash_free p = true → split_slash p = [p].
Proof.
  induction p as [|c p IH]; simpl; [done|].
  intros [Hc%bool_decide_eq_true Hp]%andb_prop.
  rewrite decide_False by done. by rewrite IH.
Qed.

Lemma split_slash_concat segs :
  segs ≠ [] → Forall (λ p, slash_free p = true) segs →
  split_slash (String.concat "/" segs) = segs.
Proof.
  induction segs as [|p segs IH]; intros Hne Hf; [done|].
  apply Forall_cons in Hf as [Hp Hf].
  destruct segs as [|q segs'].
  - by apply split_slash_free.
  - assert (String.concat "/" (p :: q :: segs') =
            p +:+ String "/" (String.concat "/" (q :: segs'))) as -> by reflexivity.
    rewrite split_slash_free_app by done. by rewrite IH.
Qed.

Definition signup_path (n : string) : string := "/activities/" +:+ n +:+ "/signup".
Definition unregister_path (n : string) : string := "/activities/" +:+ n +:+ "/unregister".

Lemma segments_of_endpoint_path n x :
  n ≠ "" → slash_free n = true → slash_free x = true →
  path_segments ("/activities/" +:+ n +:+ String "/" x) = Some ["activities"; n; x].
Proof.
  intros Hn Hs Hx.
  change ("/activities/" +:+ n +:+ String "/" x)
    with (String "/" (String.concat "/" ["activities"; n; x])).
  unfold path_segments. rewrite decide_True by done.
  rewrite split_slash_concat; [done|done|]. repeat constructor; done.
Qed.

Lemma dispatch_signup n :
  n ≠ "" → slash_free n = true →
  dispatch POST (signup_path n) = MFull EpSignup [("activity_name", n)].
Proof.
  intros Hn Hs. unfold dispatch, signup_path.
  rewrite (segments_of_endpoint_path n "signup") by done.
  simpl. destruct (decide (n = "")); [done|reflexivity].
Qed.

Lemma dispatch_unregister n :
  n ≠ "" → slash_free n = true →
  dispatch DELETE (unregister_path n) = MFull EpUnregister [("activity_name", n)].
Proof.
  intros Hn Hs. unfold dispatch, unregister_path.
  rewrite (segments_of_endpoint_path n "unregister") by done.
  simpl. destruct (decide (n = "")); [done|reflexivity].
Qed.

(** ** Trailing slashes *)

Lemma split_slash_nonempty p : split_slash p ≠ [].
Proof. destruct p as [|c p]; simpl; [done|]. case_decide; [done|]. by destruct (split_slash p). Qed.

Lemma split_slash_snoc p : split_slash (p +:+ "/") = split_slash p ++ [""].
Proof.
  induction p as [|c p IH]; [reflexivity|].
  change (String c p +:+ "/") with (String c (p +:+ "/")). simpl. rewrite IH.
  case_decide; [done|]. by destruct (split_slash p) eqn:?; [by destruct (split_slash_nonempty p)|].
Qed.

Lemma path_segments_snoc p :
  p ≠ "" → path_segments (p +:+ "/") = (λ ps, ps ++ [""]) <$> path_segments p.
Proof.
  destruct p as [|c p]; [done|intros _].
  change (String c p +:+ "/") with (String c (p +:+ "/")). simpl.
  case_decide; [|done]. by rewrite split_slash_snoc.
Qed.

Lemma length_snoc p : String.length (p +:+ "/") = S (String.length p).
Proof. induction p as [|c p IH]; simpl; by rewrite ?IH. Qed.

Lemma get_snoc p : String.get (String.length p) (p +:+ "/") = Some "/"%char.
Proof. by induction p. Qed.

Lemma rstrip_slash_snoc p : rstrip_slash (p +:+ "/") = rstrip_slash p.
Proof.
  induction p as [|c p IH]; [reflexivity|].
  change (String c p +:+ "/") with (String c (p +:+ "/")). simpl. by rewrite IH.
Qed.

Lemma rstrip_slash_app p s :
  rstrip_slash s ≠ "" → rstrip_slash (p +:+ s) = p +:+ rstrip_slash s.
Proof.
  intros Hs. induction p as [|c p IH]; [done|].
  change (String c p +:+ s) with (String c (p +:+ s)). simpl. rewrite IH.
  by destruct p, (rstrip_slash s).
Qed.

(** A path not ending in a slash is the alternative of itself with one
    slash added. *)
Lemma slash_alternative_snoc p :
  rstrip_slash p = p → slash_alternative (p +:+ "/") = p.
Proof.
  intros Hp. unfold slash_alternative. rewrite length_snoc, get_snoc, decide_True by done.
  by rewrite rstrip_slash_snoc.
Qed.

Lemma rstrip_signup_path n : rstrip_slash (signup_path n) = signup_path n.
Proof. unfold signup_path. by rewrite !rstrip_slash_app by (try rewrite rstrip_slash_app; by destruct n). Qed.

Lemma dispatch_signup_path m n :
  n ≠ "" → slash_free n = true →
  dispatch m (signup_path n) = if decide (m = POST) then MFull EpSignup [("activity_name", n)]
                               else MPartial [POST].
Proof.
  intros Hn Hs. unfold dispatch, signup_path.
  rewrite (segments_of_endpoint_path n "signup") by done.
  simpl. destruct (decide (n = "")); [done|]. destruct m; reflexivity.
Qed.

Lemma dispatch_signup_slash m n :
  n ≠ "" → slash_free n = true → dispatch m (signup_path n +:+ "/") = MNone.
Proof.
  intros Hn Hs. unfold dispatch. rewrite path_segments_snoc by done. unfold signup_path.
  rewrite (segments_of_endpoint_path n "signup") by done.
  simpl. by destruct (decide (n = "")).
Qed.


(** ** What a request never changes *)

Section Frames.
Variable static_files : list string.

Lemma call_endpoint_frame_rows ep params q :
  frame (rows ∘ db) (call_endpoint ep params q).
Proof. unfold call_endpoint, run_endpoint, root. solve_st_inv. Qed.

Lemma call_endpoint_frame_globals ep params q :
  frame (globals ∘ py) (call_endpoint ep params q).
Proof. unfold call_endpoint, run_endpoint, root. solve_st_inv. Qed.

#[local] Hint Resolve call_endpoint_frame_rows call_endpoint_frame_globals : st_inv.

Lemma serve_rows r : frame (rows ∘ db) (serve static_files r).
Proof. unfold serve. solve_st_inv. Qed.

Lemma serve_globals r : frame (globals ∘ py) (serve static_files r).
Proof. unfold serve. solve_st_inv. Qed.

(** Every reachable world has the seeded rows and the module's globals. *)
Lemma reachable_rows_globals w :
  reachable static_files w →
  (∃ clk, rows (db w) = imap (seeded_row clk) initial_activities)
  ∧ globals (py w) = globals (module_init py0).2.
Proof.
  induction 1 as [clk|w r _ [[clk Hrows] Hglob]].
  - split; [exists clk; apply startup_event_rows|apply startup_event_globals].
  - split; [exists clk|].
    + by rewrite (serve_rows r w : rows (db (serve _ r w).2) = rows (db w)).
    + by rewrite (serve_globals r w : globals (py (serve _ r w).2) = globals (py w)).
Qed.
End Frames.

Lemma seeded_names clk :
  name <$> imap (seeded_row clk) initial_activities =
  name <$> imap (seeded_row 0) initial_activities.
Proof. reflexivity. Qed.

(** C10: in every state the server can reach, the activity names of
    the table are pairwise distinct, so [GET /activities] lists each
    name once and a name identifies one activity. *)
Theorem reachable_names_unique files w :
  reachable files w → NoDup (name <$> rows (db w)).
Proof.
  intros [[clk ->] _]%reachable_rows_globals.
  rewrite seeded_names. decide_by_vm.
Qed.

Lemma reachable_names_unique_witness :
  NoDup (name <$> rows (db (startup_event (boot 0)).2)).
Proof. apply (reachable_names_unique []). apply reachable_boot. Defined.

(** C11: in every reachable state the keys of the table are
    exactly 1, 2, ..., 9 in row order, and the next automatic key is
    within SQLite's 64-bit range, so no insert the app could make would
    meet the [int64_max] case of SQLite's key choice. *)
Theorem reachable_keys files w :
  reachable files w →
  row_ids (rows (db w)) = VInt <$> seqZ 1 9 ∧ (0 < next_id (rows (db w)) ≤ int64_max)%Z.
Proof. intros [[clk ->] _]%reachable_rows_globals. split; [reflexivity|vm_compute; split; done]. Qed.

Lemma reachable_keys_witness :
  row_ids (rows (db (startup_event (boot 0)).2)) = VInt <$> seqZ 1 9 ∧
  (0 < next_id (rows (db (startup_event (boot 0)).2)) ≤ int64_max)%Z.
Proof. apply (reachable_keys []). apply reachable_boot. Defined.

(** ** Responses *)

Definition internal_error : response := mk_response 500 [] (BText "Internal Server Error").

(** In every reachable state the unregister handler raises [NameError]
    and changes nothing. *)
Lemma unregister_reachable files w n e :
  reachable files w →
  liftPy (unregister_from_activity n e) w =
    (Exc (NameError "name 'activities' is not defined"), w).
Proof.
  intros Hr. destruct (reachable_rows_globals _ _ Hr) as [_ Hg].
  rewrite run_liftPy. unfold unregister_from_activity. rewrite load_global_undefined.
  - by destruct w.
  - rewrite Hg. apply module_init_no_activities.
Qed.

(** C3: in every reachable state, [DELETE /activities/{name}/unregister]
    with an [email] answers 500 and changes nothing: the handler raises
    [NameError] on the undefined global [activities]. *)
Theorem serve_unregister_500 files w n e q :
  reachable files w → n ≠ "" → slash_free n = true → query_param "email" q = Some e →
  serve files (mk_request DELETE (unregister_path n) q) w = (Ok internal_error, w).
Proof.
  intros Hr Hn Hs Hq. unfold serve. simpl. rewrite dispatch_unregister by done.
  unfold call_endpoint. simpl. rewrite Hq, run_endpoint_run.
  by rewrite (unregister_reachable files).
Qed.

Lemma serve_unregister_500_witness :
  serve [] (mk_request DELETE (unregister_path "Chess Club") [("email", "a@b.com")])
    (startup_event (boot 0)).2 = (Ok internal_error, (startup_event (boot 0)).2).
Proof.
  apply (serve_unregister_500 _ _ _ "a@b.com");
    [apply reachable_boot|discriminate|reflexivity|reflexivity].
Defined.

(** C4: [POST /activities/{name}/signup] with an [email] never
    succeeds: it answers 500 when the table has an activity of that
    name and 404 otherwise. *)
Theorem serve_signup_rejected files w n e q :
  n ≠ "" → slash_free n = true → query_param "email" q = Some e →
  (serve files (mk_request POST (signup_path n) q) w).1 =
    Ok (if bool_decide (Exists (λ a, name a = VStr n) (rows (db w)))
        then internal_error
        else detail_response 404 "Activity not found").
Proof.
  intros Hn Hs Hq. unfold serve. simpl. rewrite dispatch_signup by done.
  unfold call_endpoint. simpl. rewrite Hq, run_endpoint_run, get_db_run.
  pose proof (signup_for_activity_outcome (open_session w).2 n e) as Ho.
  destruct (signup_for_activity n e _) as [o w'] eqn:E. simpl in Ho. subst o.
  simpl. by destruct (bool_decide _).
Qed.

Lemma serve_signup_rejected_witness :
  (serve [] (mk_request POST (signup_path "Chess Club") [("email", "a@b.com")])
     (startup_event (boot 0)).2).1 =
    Ok (if bool_decide (Exists (λ a, name a = VStr "Chess Club") (rows (db (startup_event (boot 0)).2)))
        then internal_error else detail_response 404 "Activity not found").
Proof. apply (serve_signup_rejected _ _ _ "a@b.com"); [discriminate|reflexivity|reflexivity]. Defined.

(** C19: without an [email] query parameter, signup and unregister
    answer 422 before any handler code runs. *)
Theorem serve_missing_email files w n q :
  n ≠ "" → slash_free n = true → query_param "email" q = None →
  serve files (mk_request POST (signup_path n) q) w = (Ok (missing_query "email"), w)
  ∧ serve files (mk_request DELETE (unregister_path n) q) w = (Ok (missing_query "email"), w).
Proof.
  intros Hn Hs Hq. unfold serve. simpl.
  rewrite dispatch_signup, dispatch_unregister by done.
  unfold call_endpoint. simpl. by rewrite Hq.
Qed.

Lemma serve_missing_email_witness :
  serve [] (mk_request POST (signup_path "Chess Club") []) (startup_event (boot 0)).2 =
    (Ok (missing_query "email"), (startup_event (boot 0)).2)
  ∧ serve [] (mk_request DELETE (unregister_path "Chess Club") []) (startup_event (boot 0)).2 =
    (Ok (missing_query "email"), (startup_event (boot 0)).2).
Proof. apply serve_missing_email; [discriminate|reflexivity|reflexivity]. Defined.

Lemma serve_get_activities_rows files w q :
  (serve files (mk_request GET "/activities" q) w).1 =
    Ok (json_response 200 (JList (to_dict <$> rows (db w)))).
Proof.
  unfold serve. cbn [req_method req_path req_query].
  assert (dispatch GET "/activities" = MFull EpGetActivities []) as -> by reflexivity.
  cbv beta iota. unfold call_endpoint. by rewrite run_endpoint_run, get_db_run.
Qed.

(** C20: [GET /activities] answers 200 with [to_dict] of every row,
    in rowid order. *)
Theorem serve_get_activities files w q :
  (serve files (mk_request GET "/activities" q) w).1 =
    Ok (json_response 200 (JList (to_dict <$> rows (db w)))).
Proof. apply serve_get_activities_rows. Qed.

(** C12: in every reachable state, [GET /activities] lists the nine
    seed activities of [app.py], in their order, with the keys 1 to 9:
    no request of any kind changes what the listing shows. *)
Theorem reachable_get_activities files w q :
  reachable files w →
  (serve files (mk_request GET "/activities" q) w).1 =
    Ok (json_response 200 (JList (to_dict <$> imap (seeded_row 0) initial_activities))).
Proof.
  intros [[clk Hr] _]%reachable_rows_globals. rewrite serve_get_activities_rows, Hr.
  reflexivity.
Qed.

Lemma reachable_get_activities_witness :
  (serve [] (mk_request GET "/activities" []) (startup_event (boot 5)).2).1 =
    Ok (json_response 200 (JList (to_dict <$> imap (seeded_row 0) initial_activities))).
Proof. apply reachable_get_activities. apply reachable_boot. Defined.

(** C22: Starlette's slash redirect.  A request, with any method,
    for an activity's signup path with a slash appended runs no handler,
    leaves the state unchanged and is answered 307 with the path without
    the slash. *)
Theorem serve_signup_trailing_slash files w m n q :
  n ≠ "" → slash_free n = true →
  serve files (mk_request m (signup_path n +:+ "/") q) w =
    (Ok (mk_response 307 [("location", signup_path n)] BEmpty), w).
Proof.
  intros Hn Hs. unfold serve. cbn [req_method req_path req_query].
  rewrite dispatch_signup_slash, slash_alternative_snoc, dispatch_signup_path
    by auto using rstrip_signup_path.
  rewrite decide_True; [done|]. split.
  - unfold signup_path. by destruct n.
  - by case_decide.
Qed.

Lemma serve_signup_trailing_slash_witness :
  serve [] (mk_request DELETE (signup_path "Chess Club" +:+ "/") []) (startup_event (boot 0)).2 =
    (Ok (mk_response 307 [("location", signup_path "Chess Club")] BEmpty), (startup_event (boot 0)).2).
Proof. apply serve_signup_trailing_slash; [done|reflexivity]. Defined.

(** C23: a signup request with a method other than POST runs no
    handler, leaves the state unchanged and is answered 405 with the
    [Allow: POST] header. *)
Theorem serve_signup_wrong_method files w m n q :
  m ≠ POST → n ≠ "" → slash_free n = true →
  serve files (mk_request m (signup_path n) q) w = (Ok (method_not_allowed [POST]), w).
Proof.
  intros Hm Hn Hs. unfold serve. cbn [req_method req_path req_query].
  by rewrite dispatch_signup_path, decide_False.
Qed.

Lemma serve_signup_wrong_method_witness :
  serve [] (mk_request GET (signup_path "Chess Club") []) (startup_event (boot 0)).2 =
    (Ok (method_not_allowed [POST]), (startup_event (boot 0)).2).
Proof. apply serve_signup_wrong_method; [done|done|reflexivity]. Defined.

(** C24: [GET /] and [GET /activities] accept [GET] only: a
    request with any other method, [HEAD] included, runs no endpoint,
    leaves the state unchanged and is answered 405 with [Allow: GET]. *)
Theorem serve_get_routes_wrong_method files w m p q :
  m ≠ GET → p = "/" ∨ p = "/activities" →
  serve files (mk_request m p q) w = (Ok (method_not_allowed [GET]), w).
Proof. intros Hm [-> | ->]; destruct m; done. Qed.

Lemma serve_get_routes_wrong_method_witness :
  serve [] (mk_request HEAD "/activities" []) (startup_event (boot 0)).2 =
    (Ok (method_not_allowed [GET]), (startup_event (boot 0)).2).
Proof. apply serve_get_routes_wrong_method; [done|by right]. Defined.

(** ** Every request is answered *)

Lemma run_endpoint_answers (call : AppM reply) w : ∃ resp, (run_endpoint call w).1 = Ok resp.
Proof. rewrite run_endpoint_run. destruct (call w) as [[r|e] w']; by eexists. Qed.

(** No exception escapes [serve]: FastAPI's handlers and Starlette's
    [ServerErrorMiddleware] turn every one into a response. *)
Lemma serve_answers files r w : ∃ resp, (serve files r w).1 = Ok resp.
Proof.
  unfold serve. destruct (dispatch _ _) as [sub|ep params|ms|]; try (by eexists).
  - unfold call_endpoint. destruct ep; repeat case_match;
      first [apply run_endpoint_answers|by eexists].
  - case_decide; by eexists.
Qed.

(** ** The static mount *)

Lemma concat_cons_string c p ps :
  String.concat "/" (String c p :: ps) = String c (String.concat "/" (p :: ps)).
Proof. by destruct ps. Qed.

(** Joining the segments of a string with slashes gives it back. *)
Lemma concat_split_slash f : String.concat "/" (split_slash f) = f.
Proof.
  induction f as [|c f IH]; [done|]. simpl. case_decide as Hc.
  - subst. destruct (split_slash f) as [|p ps] eqn:Hs; [by destruct (split_slash_nonempty f)|].
    by rewrite <-IH.
  - destruct (split_slash f) as [|p ps] eqn:Hs; [by destruct (split_slash_nonempty f)|].
    by rewrite concat_cons_string, IH.
Qed.

Lemma dispatch_static m f : dispatch m ("/static/" +:+ f) = MStatic f.
Proof.
  unfold dispatch.
  assert ("/static/" +:+ f = String "/" ("static" +:+ String "/" f)) as -> by reflexivity.
  cbn [path_segments]. rewrite decide_True by done.
  rewrite split_slash_free_app by reflexivity. cbn [find_route routes match_route mount_static].
  rewrite decide_True by (split; [done|apply split_slash_nonempty]).
  by rewrite concat_split_slash.
Qed.


(** The normalisation at work: a [.] segment and a trailing slash are
    dropped, [..] cancels the segment before it, and a path that climbs
    out of the directory names no file. *)
Lemma static_path_normalises :
  static_path "./index.html" = Some "index.html" ∧
  static_path "index.html/" = Some "index.html" ∧
  static_path "css/../index.html" = Some "index.html" ∧
  static_path "../app.py" = None ∧ static_path "" = None.
Proof. split_and!; reflexivity. Qed.

End Api.
