(* ===== verification/Server.v ===== *)
(** * The server as a client sees it: raw request targets and redirects

    uvicorn receives a request line such as
    [POST /activities/Chess%20Club/signup?email=a%40b.com].  It splits
    the target at the first [?] ([target.partition("?")]), percent-decodes
    the path with [unquote] before the router sees it, and passes the raw
    query string, which Starlette's [request.query_params] parse with
    [parse_qsl] ([decode_request]).  A client builds such a target with
    [quote] for the activity name and [urlencode] for the query
    ([signup_target]).

    A client that follows redirects re-sends a 307 to its [location]
    with the same method and query ([follow], with a bound on the number
    of requests it makes).  The theorems show that such a client always
    gets a final answer, that escaped targets reach the route the client
    meant, and that no request is ever answered with a handler's
    success message. *)

From Stdlib Require Import Ascii.
From S2P Require Import Prelude Url PyCore Activity Database App Api.

Local Open Scope list_scope.

#[local] Arguments String.append : simpl nomatch.

Module Server.

Import Url Py Model Db App Api.

Record raw_request := mk_raw {
  raw_method : method;
  target : string
}.

(** [s.partition(sep)]: the part before the first [sep] and the part
    after it, empty when there is none. *)
Definition partition (sep : ascii) (s : string) : string * string :=
  let '(a, b) := split_first sep s in (a, default "" b).

(** The request the app sees: [scope["path"] = unquote(raw_path)] and
    [request.query_params = parse_qsl(query_string, keep_blank_values=True)]. *)
Definition decode_request (r : raw_request) : request :=
  let '(raw_path, qs) := partition "?" (target r) in
  mk_request (raw_method r) (unquote raw_path) (parse_qsl qs).

Definition serve_raw (files : list string) (r : raw_request) : AppM response :=
  serve files (decode_request r).

(** The target of a signup for activity [n] and e-mail [e], escaped as a
    client using [urllib.parse] escapes it. *)
Definition signup_target (n e : string) : string :=
  "/activities/" +:+ quote n +:+ "/signup?" +:+ urlencode [("email", e)].

(** Where a response redirects to: the [location] of a 307. *)
Definition redirect_location (resp : response) : option string :=
  if decide (status resp = 307%Z) then assoc_lookup "location" (headers resp) else None.

(** A client that follows redirects, making at most [fuel] requests: a
    307 is re-sent to its [location] with the same method and query.
    [None] when the fuel runs out on a redirect. *)
Fixpoint follow (files : list string) (fuel : nat) (r : request) : AppM (option response) :=
  match fuel with
  | 0 => mret None
  | S k =>
      resp ← serve files r;
      match redirect_location resp with
      | Some loc => follow files k (mk_request (req_method r) loc (req_query r))
      | None => mret (Some resp)
      end
  end.

(** ** Decoding the signup target *)

Lemma signup_target_split n e :
  split_first "?" (signup_target n e) =
    ("/activities/" +:+ quote n +:+ "/signup", Some (urlencode [("email", e)])).
Proof.
  assert (signup_target n e = ("/activities/" +:+ quote n +:+ "/signup") +:+
                               String "?" (urlencode [("email", e)])) as ->.
  { unfold signup_target. by rewrite !append_assoc_str. }
  apply split_first_free_app. rewrite !no_char_app, quote_free by done. reflexivity.
Qed.

Lemma unquote_signup_path n : unquote ("/activities/" +:+ quote n +:+ "/signup") = signup_path n.
Proof.
  rewrite unquote_percent_decode, percent_decode_app_free by reflexivity.
  by rewrite percent_decode_quote_app.
Qed.

Lemma decode_signup m n e :
  decode_request (mk_raw m (signup_target n e)) = mk_request m (signup_path n) [("email", e)].
Proof.
  unfold decode_request, partition. cbn [target raw_method].
  rewrite signup_target_split. cbv beta iota. unfold default, Datatypes.id. cbv beta iota.
  by rewrite unquote_signup_path, parse_urlencode.
Qed.

(** C18: the signup request a client builds by escaping the
    activity name with [quote] and the e-mail with [urlencode] runs the
    endpoint [signup_for_activity] (inside [get_db]) with that very name
    and e-mail, for every name without a slash and every e-mail: the
    server's decoding, the router and the parameter extraction pass
    them on unchanged. *)
Theorem serve_raw_signup_target files w n e :
  n ≠ "" → slash_free n = true →
  serve_raw files (mk_raw POST (signup_target n e)) w =
    run_endpoint (get_db (signup_for_activity n e)) w.
Proof.
  intros Hn Hs. unfold serve_raw. rewrite decode_signup. unfold serve.
  cbn [req_method req_path req_query]. rewrite dispatch_signup by done. reflexivity.
Qed.

Lemma serve_raw_signup_target_witness :
  serve_raw [] (mk_raw POST (signup_target "Chess Club" "a+b@c.com")) (startup_event (boot 0)).2 =
    run_endpoint (get_db (signup_for_activity "Chess Club" "a+b@c.com")) (startup_event (boot 0)).2.
Proof. apply serve_raw_signup_target; [discriminate|reflexivity]. Defined.

(** ** Names with a slash *)

Lemma split_slash_app p r : split_slash (p +:+ String "/" r) = split_slash p ++ split_slash r.
Proof.
  induction p as [|c p IH]; [reflexivity|].
  change (String c p +:+ String "/" r) with (String c (p +:+ String "/" r)). simpl.
  rewrite IH. case_decide; [done|].
  destruct (split_slash p) eqn:Hp; [by destruct (split_slash_nonempty p)|done].
Qed.

Lemma split_slash_long n : slash_free n = false → 2 ≤ length (split_slash n).
Proof.
  induction n as [|c n IH]; [done|]. simpl. case_decide as Hc.
  - intros _. pose proof (split_slash_nonempty n). destruct (split_slash n); simpl; [done|lia].
  - rewrite bool_decide_eq_true_2 by done. intros Hn. specialize (IH Hn).
    destruct (split_slash n); simpl in *; lia.
Qed.

Lemma path_segments_signup n :
  path_segments (signup_path n) = Some ("activities" :: split_slash n ++ ["signup"]).
Proof.
  change (signup_path n) with (String "/" ("activities" +:+ String "/" (n +:+ String "/" "signup"))).
  cbn [path_segments]. rewrite decide_True by done.
  by rewrite split_slash_free_app, split_slash_app by reflexivity.
Qed.

Lemma match_template_long t ps : length t < length ps → match_template t ps = None.
Proof.
  revert ps. induction t as [|[s|x] t IH]; intros [|p ps] Hl; simpl in *; try done; try lia.
  - case_decide; [apply IH; lia|done].
  - case_decide; [done|]. rewrite IH by lia. done.
Qed.

(** No route has four segments or more starting with [activities]. *)
Lemma find_route_long m rest :
  3 ≤ length rest → find_route m ("activities" :: rest) routes = MNone.
Proof.
  intros Hl. unfold routes. cbn [find_route match_route mount_static].
  rewrite decide_False by (intros [? _]; discriminate).
  unfold route_root, route_get_activities, route_signup, route_unregister. cbn [match_route].
  rewrite !match_template_long by (simpl; lia). done.
Qed.

Lemma dispatch_signup_long m n : slash_free n = false → dispatch m (signup_path n) = MNone.
Proof.
  intros Hn. unfold dispatch. rewrite path_segments_signup. apply find_route_long.
  pose proof (split_slash_long n Hn). rewrite length_app. simpl. lia.
Qed.

Lemma dispatch_signup_long_slash m n : slash_free n = false → dispatch m (signup_path n +:+ "/") = MNone.
Proof.
  intros Hn. unfold dispatch. rewrite path_segments_snoc by (unfold signup_path; discriminate).
  rewrite path_segments_signup. simpl. apply find_route_long.
  pose proof (split_slash_long n Hn). rewrite !length_app. simpl. lia.
Qed.

(** C17: an activity whose name contains a slash cannot be
    signed up for, even by a client that escapes the slash as [%2F]:
    uvicorn decodes the path before routing, no route has that many
    segments, and neither does the slash alternative, so every method
    gets 404 and the state is unchanged. *)
Theorem serve_raw_slash_name files w m n e :
  slash_free n = false →
  serve_raw files (mk_raw m (signup_target n e)) w = (Ok (detail_response 404 "Not Found"), w).
Proof.
  intros Hn. unfold serve_raw. rewrite decode_signup. unfold serve. cbn [req_method req_path].
  rewrite dispatch_signup_long by done.
  rewrite decide_False; [done|]. intros [_ Hd]. apply Hd. unfold slash_alternative.
  destruct (String.length (signup_path n)) eqn:Hlen; [unfold signup_path in Hlen; discriminate|].
  case_decide.
  - rewrite rstrip_signup_path. by apply dispatch_signup_long.
  - by apply dispatch_signup_long_slash.
Qed.

Lemma serve_raw_slash_name_witness :
  slash_free "Art/Craft" = false ∧
  serve_raw [] (mk_raw POST (signup_target "Art/Craft" "a@b.com")) (startup_event (boot 0)).2 =
    (Ok (detail_response 404 "Not Found"), (startup_event (boot 0)).2).
Proof. split; [reflexivity|]. apply serve_raw_slash_name. reflexivity. Defined.

(** ** Following redirects *)

Section Follow.
Context (files : list string).

Lemma follow_final k r w resp w' :
  serve files r w = (Ok resp, w') → redirect_location resp = None →
  follow files (S k) r w = (Ok (Some resp), w').
Proof. intros Hs Hl. cbn [follow]. by rewrite run_bind, Hs, Hl. Qed.

Lemma follow_redirect k r w resp w' loc :
  serve files r w = (Ok resp, w') → redirect_location resp = Some loc →
  follow files (S k) r w = follow files k (mk_request (req_method r) loc (req_query r)) w'.
Proof. intros Hs Hl. cbn [follow]. by rewrite run_bind, Hs, Hl. Qed.

Lemma serve_static_final m f : redirect_location (serve_static files m f) = None.
Proof. unfold serve_static. by repeat case_match. Qed.

Lemma serve_static_index m q w :
  serve files (mk_request m "/static/index.html" q) w = (Ok (serve_static files m "index.html"), w).
Proof.
  unfold serve. cbn [req_method req_path].
  change "/static/index.html" with ("/static/" +:+ "index.html"). by rewrite dispatch_static.
Qed.

Lemma follow_static_index k m q w :
  follow files (S k) (mk_request m "/static/index.html" q) w =
    (Ok (Some (serve_static files m "index.html")), w).
Proof. apply follow_final; [apply serve_static_index|apply serve_static_final]. Qed.

(** What an endpoint other than [root] answers in a reachable state:
    the 422 of a missing [email], the list of activities, the 404 of an
    unknown activity, or a 500. *)
Lemma call_endpoint_cases w ep params q resp w' :
  reachable files w → ep ≠ EpRoot → call_endpoint ep params q w = (Ok resp, w') →
  resp = missing_query "email" ∨ (∃ xs, resp = json_response 200 (JList xs)) ∨
  resp = detail_response 404 "Activity not found" ∨ resp = internal_error.
Proof.
  intros Hr Hep. destruct ep; [done| | |]; unfold call_endpoint.
  - rewrite run_endpoint_run, get_db_run. unfold get_activities. rewrite run_liftDb_bind.
    simpl. intros [= <- _]. right; left. by eexists.
  - destruct (assoc_lookup "activity_name" params) as [n|], (query_param "email" q) as [e|];
      try (intros [= <- _]; by left).
    rewrite run_endpoint_run, get_db_run.
    pose proof (signup_for_activity_outcome (open_session w).2 n e) as Ho.
    destruct (signup_for_activity n e _) as [o w1]. simpl in Ho. subst o.
    intros [= <- _]. case_bool_decide; [by do 3 right|by do 2 right; left].
  - destruct (assoc_lookup "activity_name" params) as [n|], (query_param "email" q) as [e|];
      try (intros [= <- _]; by left).
    rewrite run_endpoint_run, (unregister_reachable files) by done. intros [= <- _]. by do 3 right.
Qed.

(** In a reachable state no endpoint but [root] redirects. *)
Lemma call_endpoint_no_redirect w ep params q resp w' :
  reachable files w → ep ≠ EpRoot →
  call_endpoint ep params q w = (Ok resp, w') → redirect_location resp = None.
Proof.
  intros Hr Hep Hc. by destruct (call_endpoint_cases _ _ _ _ _ _ Hr Hep Hc) as [->|[[xs ->]|[->| ->]]].
Qed.

(** A redirect in a reachable state changes nothing and leads either to
    the static index ([root]) or, by the slash redirect, to a path some
    route matches while the original path matched none. *)
Lemma serve_redirect_cases r w resp w' loc :
  reachable files w → serve files r w = (Ok resp, w') → redirect_location resp = Some loc →
  w' = w ∧ (loc = "/static/index.html" ∨
            dispatch (req_method r) loc ≠ MNone ∧ dispatch (req_method r) (req_path r) = MNone).
Proof.
  intros Hr. unfold serve. destruct (dispatch _ _) as [sub|ep params|ms|] eqn:Hd.
  - intros [= <- _]. by rewrite serve_static_final.
  - destruct (decide (ep = EpRoot)) as [->|Hep].
    + cbn [call_endpoint]. rewrite run_endpoint_run. intros [= <- <-] [= <-]. by split; [|left].
    + intros Hs Hl. by rewrite (call_endpoint_no_redirect _ _ _ _ _ _ Hr Hep Hs) in Hl.
  - by intros [= <- _].
  - case_decide as Halt; intros [= <- <-]; [|done]. intros [= <-]. split; [done|right]. tauto.
Qed.

(** C16: following redirects terminates.  In every reachable
    state, a client that follows the app's 307s gets a response that is
    not a redirect within three requests: the slash redirect leads to a
    path some route matches, and [GET /] to the static mount, which
    never redirects. *)
Theorem follow_terminates r w :
  reachable files w →
  ∃ resp w', follow files 3 r w = (Ok (Some resp), w') ∧ redirect_location resp = None.
Proof.
  intros Hr. destruct (serve_answers files r w) as [resp1 H1].
  destruct (serve files r w) as [o w1] eqn:Hs1. simpl in H1. subst o.
  destruct (redirect_location resp1) as [loc1|] eqn:Hl1;
    [|exists resp1, w1; split; [by apply follow_final|done]].
  rewrite (follow_redirect _ _ _ _ _ _ Hs1 Hl1).
  destruct (serve_redirect_cases _ _ _ _ _ Hr Hs1 Hl1) as [-> [-> | [Hd1 _]]].
  { eexists _, w. split; [apply follow_static_index|apply serve_static_final]. }
  set (r2 := mk_request (req_method r) loc1 (req_query r)).
  destruct (serve_answers files r2 w) as [resp2 H2].
  destruct (serve files r2 w) as [o w2] eqn:Hs2. simpl in H2. subst o.
  destruct (redirect_location resp2) as [loc2|] eqn:Hl2;
    [|exists resp2, w2; split; [by apply follow_final|done]].
  rewrite (follow_redirect _ _ _ _ _ _ Hs2 Hl2).
  destruct (serve_redirect_cases _ _ _ _ _ Hr Hs2 Hl2) as [-> [-> | [_ Hd2]]]; [|done].
  eexists _, w. split; [apply follow_static_index|apply serve_static_final].
Qed.
End Follow.

Lemma follow_terminates_witness :
  reachable [] (startup_event (boot 0)).2 ∧
  ∃ resp w', follow [] 3 (mk_request GET "" []) (startup_event (boot 0)).2 = (Ok (Some resp), w') ∧
             redirect_location resp = None.
Proof. split; [apply reachable_boot|]. apply follow_terminates. apply reachable_boot. Defined.

(** ** No request is ever confirmed *)

(** C5: in every reachable state, no request the server
    receives, whatever its method, target and query, is answered with
    the handlers' success reply [{"message": ...}]: no student is ever
    told that a signup or an unregistration succeeded. *)
Theorem serve_raw_never_confirms files w r resp w' :
  reachable files w → serve_raw files r w = (Ok resp, w') →
  ∀ msg, resp_body resp ≠ BJson (JObj [("message", JStr msg)]).
Proof.
  intros Hr. unfold serve_raw, serve. destruct (dispatch _ _) as [sub|ep params|ms|].
  - intros [= <- _] msg. unfold serve_static. by repeat case_match.
  - destruct (decide (ep = EpRoot)) as [->|Hep].
    + cbn [call_endpoint]. rewrite run_endpoint_run. by intros [= <- _].
    + intros Hc msg. by destruct (call_endpoint_cases _ _ _ _ _ _ _ Hr Hep Hc) as [->|[[xs ->]|[->| ->]]].
  - by intros [= <- _].
  - by case_decide; intros [= <- _].
Qed.

Lemma serve_raw_never_confirms_witness :
  resp_body internal_error ≠
    BJson (JObj [("message", JStr "Signed up a@b.com for Chess Club")]).
Proof.
  apply (serve_raw_never_confirms [] (startup_event (boot 0)).2
           (mk_raw POST (signup_target "Chess Club" "a@b.com")) internal_error
           (serve_raw [] (mk_raw POST (signup_target "Chess Club" "a@b.com")) (startup_event (boot 0)).2).2
           (reachable_boot [] 0) ltac:(vm_compute; reflexivity)).
Defined.

(** The bound is reached: an empty path is redirected to [/], which is
    redirected to the static index, so two requests are not enough. *)
Lemma follow_two_not_enough :
  (follow [] 2 (mk_request GET "" []) (startup_event (boot 0)).2).1 = Ok None.
Proof. vm_compute. reflexivity. Qed.

End Server.
