(* ===== verification/StoreSpec.v ===== *)
(** * The Activity Store contract (spec, section 4.1)

    The interface the spec asks of the component that owns the
    activities: the participants of an activity by name, [signup] and
    [unregister], each failing with [NotFound], [AlreadyRegistered] or
    [NotRegistered] (and [ServerError] for a failure of the storage
    layer, section 7).  [ActivityStoreLaws] states the contract on the
    states satisfying the store's invariant; [RefStore] is the reference
    implementation on a finite map; the section [Clients] proves, against
    the interface only, the properties of section 8 and that every lawful
    store is simulated by the reference store.  [DictStore] discharges
    the interface for the handler code of [app.py]. *)

From S2P Require Import Prelude.

Local Open Scope string_scope.
Local Open Scope list_scope.

Module Store.

Inductive store_error := NotFound | AlreadyRegistered | NotRegistered | ServerError.

#[export] Instance store_error_eq_dec : EqDecision store_error.
Proof. solve_decision. Defined.

Class ActivityStore (T : Type) := {
  participants : T → string → option (list string);
  signup : string → string → T → store_error + T;
  unregister : string → string → T → store_error + T
}.

(** The contract of section 4.1 on the states satisfying [store_ok]. *)
Class ActivityStoreLaws (T : Type) `{!ActivityStore T} (store_ok : T → Prop) := {
  participants_nodup S n ps :
    store_ok S → participants S n = Some ps → NoDup ps;
  signup_not_found S n e :
    store_ok S → participants S n = None → signup n e S = inl NotFound;
  signup_registered S n e ps :
    store_ok S → participants S n = Some ps → e ∈ ps → signup n e S = inl AlreadyRegistered;
  signup_adds S n e ps :
    store_ok S → participants S n = Some ps → e ∉ ps →
    ∃ S', signup n e S = inr S' ∧ store_ok S' ∧ participants S' n = Some (ps ++ [e]) ∧
          ∀ n', n' ≠ n → participants S' n' = participants S n';
  unregister_not_found S n e :
    store_ok S → participants S n = None → unregister n e S = inl NotFound;
  unregister_not_registered S n e ps :
    store_ok S → participants S n = Some ps → e ∉ ps → unregister n e S = inl NotRegistered;
  unregister_removes S n e ps :
    store_ok S → participants S n = Some ps → e ∈ ps →
    ∃ S' ps', remove_first e ps = Some ps' ∧ unregister n e S = inr S' ∧ store_ok S' ∧
              participants S' n = Some ps' ∧
              ∀ n', n' ≠ n → participants S' n' = participants S n'
}.

(** ** The reference store *)

Abbreviation RefStore := (gmap string (list string)).

Definition ref_signup (n e : string) (S : RefStore) : store_error + RefStore :=
  match S !! n with
  | None => inl NotFound
  | Some ps => if decide (e ∈ ps) then inl AlreadyRegistered else inr (<[n := ps ++ [e]]> S)
  end.

Definition ref_unregister (n e : string) (S : RefStore) : store_error + RefStore :=
  match S !! n with
  | None => inl NotFound
  | Some ps =>
      match remove_first e ps with
      | None => inl NotRegistered
      | Some ps' => inr (<[n := ps']> S)
      end
  end.

Definition ref_ok (S : RefStore) : Prop := map_Forall (λ _ ps, NoDup ps) S.

#[export] Instance ref_store : ActivityStore RefStore :=
  {| participants S n := S !! n; signup := ref_signup; unregister := ref_unregister |}.

#[export] Instance ref_store_laws : ActivityStoreLaws RefStore ref_ok.
Proof.
  split; simpl; unfold ref_signup, ref_unregister.
  - intros S n ps HS Hn. by apply (HS n).
  - intros S n e _ ->. done.
  - intros S n e ps _ -> He. by rewrite decide_True.
  - intros S n e ps HS Hn He. rewrite Hn, decide_False by done.
    eexists. split_and!; [done| |by rewrite lookup_insert_eq|].
    + apply map_Forall_insert_2; [|done]. apply NoDup_app.
      split_and!; [by apply (HS n)| |apply NoDup_singleton].
      by intros x Hx ->%list_elem_of_singleton.
    + intros n' Hn'. by rewrite lookup_insert_ne.
  - intros S n e _ ->. done.
  - intros S n e ps _ -> He. by rewrite (proj2 (remove_first_None e ps) He).
  - intros S n e ps HS Hn He. rewrite Hn.
    destruct (remove_first e ps) as [ps'|] eqn:Hr; [|by apply remove_first_None in Hr].
    exists (<[n := ps']> S), ps'. split_and!; [done|done| |by rewrite lookup_insert_eq|].
    + apply map_Forall_insert_2; [|done].
      eapply remove_first_NoDup; [by apply (HS n)|done].
    + intros n' Hn'. by rewrite lookup_insert_ne.
Qed.

(** ** What every lawful store guarantees *)

Section Clients.
Context {T : Type} `{!ActivityStore T} (store_ok : T → Prop).
Context `{laws : !ActivityStoreLaws T store_ok}.

(** A store state and a reference state with the same participants. *)
Definition related (S : T) (R : RefStore) : Prop := ∀ n, participants S n = R !! n.

(** Signing up and then unregistering the same e-mail restores the
    participants of every activity (spec, section 8). *)
Lemma store_signup_unregister S n e ps :
  store_ok S → participants S n = Some ps → e ∉ ps →
  ∃ S1 S2, signup n e S = inr S1 ∧ unregister n e S1 = inr S2 ∧ store_ok S2 ∧
           ∀ n', participants S2 n' = participants S n'.
Proof using All.
  intros Hok Hn He.
  destruct (signup_adds S n e ps Hok Hn He) as (S1 & Hs & Hok1 & Hn1 & Hoth1).
  assert (e ∈ ps ++ [e]) as He1 by (apply elem_of_app; right; by left).
  destruct (unregister_removes S1 n e _ Hok1 Hn1 He1) as (S2 & ps' & Hr & Hu & Hok2 & Hn2 & Hoth2).
  rewrite remove_first_snoc in Hr by done. injection Hr as <-.
  exists S1, S2. split_and!; [done|done|done|].
  intros n'. destruct (decide (n' = n)) as [->|Hne]; [by rewrite Hn2|].
  by rewrite Hoth2, Hoth1.
Qed.

(** The second signup of the same e-mail fails (spec, section 8). *)
Lemma store_signup_twice S n e ps S1 :
  store_ok S → participants S n = Some ps → signup n e S = inr S1 →
  signup n e S1 = inl AlreadyRegistered.
Proof using All.
  intros Hok Hn Hs. destruct (decide (e ∈ ps)) as [He|He].
  - by rewrite (signup_registered S n e ps) in Hs.
  - destruct (signup_adds S n e ps Hok Hn He) as (S1' & Hs' & Hok1 & Hn1 & _).
    rewrite Hs in Hs'. injection Hs' as <-.
    apply (signup_registered S1 n e (ps ++ [e])); [done|done|].
    apply elem_of_app. right. by left.
Qed.

(** Every lawful store is simulated by the reference store: from
    related states, [signup] fails with the same error or leads to
    related states. *)
Lemma signup_simulation S R n e :
  store_ok S → related S R →
  match signup n e S, ref_signup n e R with
  | inl e1, inl e2 => e1 = e2
  | inr S', inr R' => store_ok S' ∧ related S' R'
  | _, _ => False
  end.
Proof using All.
  intros Hok Hrel. unfold ref_signup. rewrite <-(Hrel n).
  destruct (participants S n) as [ps|] eqn:Hn; [|by rewrite signup_not_found].
  destruct (decide (e ∈ ps)) as [He|He]; [by rewrite (signup_registered S n e ps)|].
  destruct (signup_adds S n e ps Hok Hn He) as (S' & -> & Hok' & Hn' & Hoth).
  split; [done|]. intros n'. destruct (decide (n' = n)) as [->|Hne].
  - by rewrite Hn', lookup_insert_eq.
  - by rewrite Hoth, lookup_insert_ne, Hrel.
Qed.

Lemma unregister_simulation S R n e :
  store_ok S → related S R →
  match unregister n e S, ref_unregister n e R with
  | inl e1, inl e2 => e1 = e2
  | inr S', inr R' => store_ok S' ∧ related S' R'
  | _, _ => False
  end.
Proof using All.
  intros Hok Hrel. unfold ref_unregister. rewrite <-(Hrel n).
  destruct (participants S n) as [ps|] eqn:Hn; [|by rewrite unregister_not_found].
  destruct (decide (e ∈ ps)) as [He|He].
  - destruct (unregister_removes S n e ps Hok Hn He) as (S' & ps' & Hr & -> & Hok' & Hn' & Hoth).
    rewrite Hr. split; [done|]. intros n'. destruct (decide (n' = n)) as [->|Hne].
    + by rewrite Hn', lookup_insert_eq.
    + by rewrite Hoth, lookup_insert_ne, Hrel.
  - rewrite (unregister_not_registered S n e ps), (proj2 (remove_first_None e ps) He) by done.
    done.
Qed.
End Clients.

End Store.
