(* ===== verification/DictStore.v ===== *)
(** * The handler code as an Activity Store over an in-memory dict

    [unregister_from_activity] reads the module global [activities] and
    subscripts what it finds as [activities[name]["participants"]]; the
    body of [signup_for_activity] (lines 122-131, [signup_checks])
    subscripts its [activity] the same way.  Both are written against an
    in-memory store: a dict from activity names to dicts whose
    ["participants"] entry is a list of e-mails.  This file runs that
    code on such a store, held in the Python heap:

    - [layout_ok s L] says where the store lives in the heap [s]: the
      global [activities] is the dict at [store_loc L], and [slots L]
      gives, for each activity name, the location of its dict and of its
      participants list.  The lists of two activities are two distinct
      objects (no aliasing) and none of them is one of the dicts, and
      each list holds distinct strings.
    - [dict_signup] is the lookup of [unregister_from_activity]
      (lines 137-142) followed by [signup_checks]: the signup handler as
      it reads with the in-memory store.
    - [dict_store] makes the Python state an [ActivityStore] with these
      two handlers, and [dict_store_laws] proves that it satisfies the
      contract of [StoreSpec] on every state with a layout.
    - The handlers keep a layout on every path, failures included. *)

From S2P Require Import Prelude PyCore Activity Database App StoreSpec.

Local Open Scope string_scope.
Local Open Scope list_scope.

Module DictStore.

Import Py App Store.

(** ** The store in the heap *)

Record layout := mk_layout {
  store_loc : loc;
  slots : gmap string (loc * loc)
}.

(** The dict of the activity [n] is at [la] and its participants list,
    holding [ps], at [lp]. *)
Definition slot_ok (s : pystate) (items : list (value * value)) (n : string) (la lp : loc) : Prop :=
  assoc_lookup (VStr n) items = Some (VRef la) ∧
  (∃ attrs, heap s !! la = Some (ODict attrs) ∧
            assoc_lookup (VStr "participants") attrs = Some (VRef lp)) ∧
  (∃ ps, heap s !! lp = Some (OList (VStr <$> ps)) ∧ NoDup ps).

Definition layout_ok (s : pystate) (L : layout) : Prop :=
  ∃ items,
    globals s !! "activities" = Some (VRef (store_loc L)) ∧
    heap s !! store_loc L = Some (ODict items) ∧
    (∀ n, VStr n ∈ items.*1 ↔ is_Some (slots L !! n)) ∧
    (∀ n la lp, slots L !! n = Some (la, lp) → slot_ok s items n la lp) ∧
    (∀ n1 n2 la1 lp1 la2 lp2,
       slots L !! n1 = Some (la1, lp1) → slots L !! n2 = Some (la2, lp2) →
       lp1 ≠ store_loc L ∧ lp1 ≠ la2 ∧ (n1 ≠ n2 → lp1 ≠ lp2)).

Definition py_store_ok (s : pystate) : Prop := ∃ L, layout_ok s L.

(** ** Reading the store *)

Definition decode_str (v : value) : option string :=
  match v with VStr x => Some x | _ => None end.

(** [activities[n]["participants"]] as a list of strings, when the
    store has this shape. *)
Definition py_participants (s : pystate) (n : string) : option (list string) :=
  match globals s !! "activities" with
  | Some (VRef d) =>
      match heap s !! d with
      | Some (ODict items) =>
          match assoc_lookup (VStr n) items with
          | Some (VRef la) =>
              match heap s !! la with
              | Some (ODict attrs) =>
                  match assoc_lookup (VStr "participants") attrs with
                  | Some (VRef lp) =>
                      match heap s !! lp with
                      | Some (OList xs) => mapM decode_str xs
                      | _ => None
                      end
                  | _ => None
                  end
              | _ => None
              end
          | _ => None
          end
      | _ => None
      end
  | _ => None
  end.

(** ** The handlers as store operations *)

Definition dict_signup (activity_name email : string) : PyM reply :=
  activities ← load_global "activities";
  known ← contains (VStr activity_name) activities;
  if negb known then
    mthrow (HTTPException 404 "Activity not found")
  else
    activity ← getitem activities (VStr activity_name);
    signup_checks activity activity_name email.

(** The error a handler's [HTTPException] reports; any other exception
    is a server error. *)
Definition store_error_of (e : exn) : store_error :=
  if decide (e = HTTPException 404 "Activity not found") then NotFound
  else if decide (e = HTTPException 400 "Student is already signed up") then AlreadyRegistered
  else if decide (e = HTTPException 400 "Student is not signed up for this activity") then NotRegistered
  else ServerError.

Definition run_store (m : PyM reply) (s : pystate) : store_error + pystate :=
  match m s with
  | (Ok _, s') => inr s'
  | (Exc e, _) => inl (store_error_of e)
  end.

#[export] Instance dict_store : ActivityStore pystate :=
  {| participants := py_participants;
     signup n e := run_store (dict_signup n e);
     unregister n e := run_store (unregister_from_activity n e) |}.

(** ** Lemmas on the layout *)

#[export] Instance VStr_inj : Inj (=) (=) VStr.
Proof. by intros x y [= ->]. Qed.

Lemma mapM_decode_str ps : mapM decode_str (VStr <$> ps) = Some ps.
Proof. by apply mapM_fmap_Some. Qed.

Lemma elem_of_VStr e (ps : list string) : VStr e ∈ VStr <$> ps ↔ e ∈ ps.
Proof. apply list_elem_of_fmap_inj, _. Qed.

Section Layout.
Implicit Types (s : pystate) (L : layout).

(** What the layout says about an activity of the store. *)
Lemma layout_slot s L n la lp :
  layout_ok s L → slots L !! n = Some (la, lp) →
  ∃ items attrs ps,
    globals s !! "activities" = Some (VRef (store_loc L)) ∧
    heap s !! store_loc L = Some (ODict items) ∧
    VStr n ∈ items.*1 ∧ assoc_lookup (VStr n) items = Some (VRef la) ∧
    heap s !! la = Some (ODict attrs) ∧
    assoc_lookup (VStr "participants") attrs = Some (VRef lp) ∧
    heap s !! lp = Some (OList (VStr <$> ps)) ∧ NoDup ps.
Proof.
  intros (items & Hg & Hd & Hkeys & Hslots & _) Hn.
  destruct (Hslots _ _ _ Hn) as (Hla & (attrs & Ha & Hp) & (ps & Hps & Hnd)).
  exists items, attrs, ps. split_and!; try done. apply Hkeys. by eexists.
Qed.

Lemma layout_no_slot s L n :
  layout_ok s L → slots L !! n = None →
  ∃ items, globals s !! "activities" = Some (VRef (store_loc L)) ∧
           heap s !! store_loc L = Some (ODict items) ∧ VStr n ∉ items.*1.
Proof.
  intros (items & Hg & Hd & Hkeys & _) Hn. exists items. split_and!; [done|done|].
  rewrite Hkeys, Hn. by intros [? ?].
Qed.

Lemma py_participants_slot s L n la lp ps :
  layout_ok s L → slots L !! n = Some (la, lp) → heap s !! lp = Some (OList (VStr <$> ps)) →
  py_participants s n = Some ps.
Proof.
  intros HL Hn Hps.
  destruct (layout_slot _ _ _ _ _ HL Hn) as (items & attrs & ps' & Hg & Hd & _ & Hla & Ha & Hp & _).
  unfold py_participants. rewrite Hg, Hd, Hla, Ha, Hp, Hps. apply mapM_decode_str.
Qed.

Lemma py_participants_no_slot s L n :
  layout_ok s L → slots L !! n = None → py_participants s n = None.
Proof.
  intros HL Hn. destruct (layout_no_slot _ _ _ HL Hn) as (items & Hg & Hd & Hnot).
  unfold py_participants. rewrite Hg, Hd. by rewrite (proj2 (assoc_lookup_None _ _) Hnot).
Qed.

(** Replacing the participants list of one activity keeps the layout. *)
Lemma layout_update s L n la lp ps' :
  layout_ok s L → slots L !! n = Some (la, lp) → NoDup ps' →
  layout_ok (set_obj lp (OList (VStr <$> ps')) s) L.
Proof.
  intros HL Hn Hnd'. pose proof HL as (items & Hg & Hd & Hkeys & Hslots & Hsep).
  exists items. unfold set_obj; simpl. split_and!; [done| | done | | done].
  - rewrite lookup_insert_ne; [done|]. by destruct (Hsep _ _ _ _ _ _ Hn Hn) as (? & _).
  - intros n2 la2 lp2 Hn2.
    destruct (Hslots _ _ _ Hn2) as (Hla & (attrs & Ha & Hp) & (ps & Hps & Hnd)).
    destruct (Hsep _ _ _ _ _ _ Hn Hn2) as (_ & Hlpla & Hlplp).
    split_and!; [done| |].
    + exists attrs. cbn [heap]. by rewrite lookup_insert_ne.
    + destruct (decide (n = n2)) as [<-|Hne].
      * rewrite Hn in Hn2. injection Hn2 as <- <-. exists ps'. cbn [heap].
        by rewrite lookup_insert_eq.
      * exists ps. cbn [heap]. rewrite lookup_insert_ne; [done|]. by apply Hlplp.
Qed.

(** The participants after replacing those of [n]. *)
Lemma py_participants_update s L n la lp ps' n' :
  layout_ok s L → slots L !! n = Some (la, lp) → NoDup ps' →
  py_participants (set_obj lp (OList (VStr <$> ps')) s) n' =
    if decide (n' = n) then Some ps' else py_participants s n'.
Proof.
  intros HL Hn Hnd'. pose proof (layout_update _ _ _ _ _ _ HL Hn Hnd') as HL'.
  destruct (slots L !! n') as [[la2 lp2]|] eqn:Hn2.
  - destruct (layout_slot _ _ _ _ _ HL Hn2) as (_ & _ & ps2 & _ & _ & _ & _ & _ & _ & Hps2 & _).
    destruct (decide (n' = n)) as [->|Hne].
    + rewrite Hn in Hn2. injection Hn2 as <- <-.
      apply (py_participants_slot _ _ _ _ _ _ HL' Hn). simpl. by rewrite lookup_insert_eq.
    + rewrite (py_participants_slot _ _ _ _ _ _ HL Hn2 Hps2).
      apply (py_participants_slot _ _ _ _ _ _ HL' Hn2). simpl.
      destruct HL as (_ & _ & _ & _ & _ & Hsep).
      destruct (Hsep _ _ _ _ _ _ Hn Hn2) as (_ & _ & Hlplp).
      rewrite lookup_insert_ne; [done|]. apply Hlplp. done.
  - rewrite (py_participants_no_slot _ _ _ HL' Hn2), (py_participants_no_slot _ _ _ HL Hn2).
    destruct (decide (n' = n)) as [->|]; [congruence|done].
Qed.
End Layout.

(** ** Running the handlers on the store *)

Definition signed_up_reply (n e : string) : reply :=
  RJson (JObj [("message", JStr ("Signed up " +:+ e +:+ " for " +:+ n))]).

Definition unregistered_reply (n e : string) : reply :=
  RJson (JObj [("message", JStr ("Unregistered " +:+ e +:+ " from " +:+ n))]).

Section Run.
Implicit Types (s : pystate) (L : layout).

(** Lines 137-142: [activities[activity_name]] after the existence
    check, for a name of the store and for any other name. *)
Lemma lookup_activity_slot {A} s L n la lp (k : value → PyM A) :
  layout_ok s L → slots L !! n = Some (la, lp) →
  (acts ← load_global "activities";
   known ← contains (VStr n) acts;
   if negb known then mthrow (HTTPException 404 "Activity not found")
   else activity ← getitem acts (VStr n); k activity) s = k (VRef la) s.
Proof.
  intros HL Hn.
  destruct (layout_slot _ _ _ _ _ HL Hn) as (items & attrs & ps & Hg & Hd & Hin & Hla & _).
  rewrite (run_load_global_bind _ _ _ _ Hg).
  run_ok (contains_dict_str _ _ _ n Hd). rewrite bool_decide_eq_true_2 by done.
  cbn [negb]. by run_ok (getitem_dict_str _ _ _ _ _ Hd Hla).
Qed.

Lemma lookup_activity_no_slot {A} s L n (k : value → PyM A) :
  layout_ok s L → slots L !! n = None →
  (acts ← load_global "activities";
   known ← contains (VStr n) acts;
   if negb known then mthrow (HTTPException 404 "Activity not found")
   else activity ← getitem acts (VStr n); k activity) s =
  (Exc (HTTPException 404 "Activity not found"), s).
Proof.
  intros HL Hn. destruct (layout_no_slot _ _ _ HL Hn) as (items & Hg & Hd & Hnot).
  rewrite (run_load_global_bind _ _ _ _ Hg).
  run_ok (contains_dict_str _ _ _ n Hd). by rewrite bool_decide_eq_false_2.
Qed.

Lemma unregister_on_slot s L n la lp ps e :
  layout_ok s L → slots L !! n = Some (la, lp) → heap s !! lp = Some (OList (VStr <$> ps)) →
  unregister_from_activity n e s =
    match remove_first e ps with
    | None => (Exc (HTTPException 400 "Student is not signed up for this activity"), s)
    | Some ps' => (Ok (unregistered_reply n e), set_obj lp (OList (VStr <$> ps')) s)
    end.
Proof.
  intros HL Hn Hps.
  destruct (layout_slot _ _ _ _ _ HL Hn) as (items & attrs & ps0 & _ & _ & _ & _ & Ha & Hp & _).
  unfold unregister_from_activity. rewrite (lookup_activity_slot _ _ _ _ _ _ HL Hn).
  run_ok (getitem_dict_str _ _ _ _ _ Ha Hp).
  run_ok (contains_list _ _ _ (VStr e) Hps).
  destruct (remove_first e ps) as [ps'|] eqn:Hr.
  - rewrite bool_decide_eq_true_2.
    2:{ apply elem_of_VStr. apply remove_first_Some in Hr as (l1 & l2 & -> & _).
        apply elem_of_app. right. by left. }
    cbn [negb]. run_ok (getitem_dict_str _ _ _ _ _ Ha Hp).
    assert (remove_first (VStr e) (VStr <$> ps) = Some (VStr <$> ps')) as Hr'.
    { rewrite (remove_first_fmap VStr e ps), Hr. reflexivity. }
    by run_ok (list_remove_list _ _ _ _ _ Hps Hr').
  - rewrite bool_decide_eq_false_2 by (rewrite elem_of_VStr; by apply remove_first_None).
    done.
Qed.

Lemma dict_signup_on_slot s L n la lp ps e :
  layout_ok s L → slots L !! n = Some (la, lp) → heap s !! lp = Some (OList (VStr <$> ps)) →
  dict_signup n e s =
    if decide (e ∈ ps) then (Exc (HTTPException 400 "Student is already signed up"), s)
    else (Ok (signed_up_reply n e), set_obj lp (OList (VStr <$> (ps ++ [e]))) s).
Proof.
  intros HL Hn Hps.
  destruct (layout_slot _ _ _ _ _ HL Hn) as (items & attrs & ps0 & _ & _ & _ & _ & Ha & Hp & _).
  unfold dict_signup. rewrite (lookup_activity_slot _ _ _ _ _ _ HL Hn).
  unfold signup_checks.
  run_ok (getitem_dict_str _ _ _ _ _ Ha Hp).
  run_ok (contains_list _ _ _ (VStr e) Hps).
  destruct (decide (e ∈ ps)) as [He|He].
  - by rewrite bool_decide_eq_true_2 by by apply elem_of_VStr.
  - rewrite bool_decide_eq_false_2 by by rewrite elem_of_VStr.
    run_ok (getitem_dict_str _ _ _ _ _ Ha Hp).
    run_ok (list_append_list _ _ _ (VStr e) Hps).
    by rewrite fmap_app.
Qed.
End Run.

(** ** The contract holds *)

Section Laws.
Implicit Types (s : pystate) (L : layout).

Lemma slot_of_participants s L n ps :
  layout_ok s L → py_participants s n = Some ps →
  ∃ la lp, slots L !! n = Some (la, lp) ∧ heap s !! lp = Some (OList (VStr <$> ps)) ∧ NoDup ps.
Proof.
  intros HL Hp. destruct (slots L !! n) as [[la lp]|] eqn:Hn.
  - destruct (layout_slot _ _ _ _ _ HL Hn) as (_ & _ & ps0 & _ & _ & _ & _ & _ & _ & Hps0 & Hnd).
    rewrite (py_participants_slot _ _ _ _ _ _ HL Hn Hps0) in Hp. injection Hp as <-.
    by exists la, lp.
  - by rewrite (py_participants_no_slot _ _ _ HL Hn) in Hp.
Qed.

Lemma no_slot_of_participants s L n :
  layout_ok s L → py_participants s n = None → slots L !! n = None.
Proof.
  intros HL Hp. destruct (slots L !! n) as [[la lp]|] eqn:Hn; [|done].
  destruct (layout_slot _ _ _ _ _ HL Hn) as (_ & _ & ps0 & _ & _ & _ & _ & _ & _ & Hps0 & _).
  by rewrite (py_participants_slot _ _ _ _ _ _ HL Hn Hps0) in Hp.
Qed.

Lemma participants_after_update s L n la lp ps' :
  layout_ok s L → slots L !! n = Some (la, lp) → NoDup ps' →
  py_participants (set_obj lp (OList (VStr <$> ps')) s) n = Some ps' ∧
  ∀ n', n' ≠ n → py_participants (set_obj lp (OList (VStr <$> ps')) s) n' = py_participants s n'.
Proof.
  intros HL Hn Hnd. split.
  - by rewrite (py_participants_update _ _ _ _ _ _ _ HL Hn Hnd), decide_True.
  - intros n' Hne. by rewrite (py_participants_update _ _ _ _ _ _ _ HL Hn Hnd), decide_False.
Qed.
End Laws.

#[export] Instance dict_store_laws : ActivityStoreLaws pystate py_store_ok.
Proof.
  split; simpl; unfold run_store.
  - intros s n ps [L HL] Hp. by destruct (slot_of_participants _ _ _ _ HL Hp) as (? & ? & _ & _ & ?).
  - intros s n e [L HL] Hp. unfold dict_signup.
    by rewrite (lookup_activity_no_slot _ _ _ _ HL (no_slot_of_participants _ _ _ HL Hp)).
  - intros s n e ps [L HL] Hp He.
    destruct (slot_of_participants _ _ _ _ HL Hp) as (la & lp & Hn & Hps & _).
    by rewrite (dict_signup_on_slot _ _ _ _ _ _ e HL Hn Hps), decide_True.
  - intros s n e ps [L HL] Hp He.
    destruct (slot_of_participants _ _ _ _ HL Hp) as (la & lp & Hn & Hps & Hnd).
    rewrite (dict_signup_on_slot _ _ _ _ _ _ e HL Hn Hps), decide_False by done.
    pose proof (NoDup_snoc e ps Hnd He) as Hnd'.
    eexists. split_and!; [done|by exists L; apply (layout_update _ _ _ _ _ _ HL Hn Hnd')|..];
      apply (participants_after_update _ _ _ _ _ _ HL Hn Hnd').
  - intros s n e [L HL] Hp. unfold unregister_from_activity.
    by rewrite (lookup_activity_no_slot _ _ _ _ HL (no_slot_of_participants _ _ _ HL Hp)).
  - intros s n e ps [L HL] Hp He.
    destruct (slot_of_participants _ _ _ _ HL Hp) as (la & lp & Hn & Hps & _).
    by rewrite (unregister_on_slot _ _ _ _ _ _ e HL Hn Hps), (proj2 (remove_first_None e ps) He).
  - intros s n e ps [L HL] Hp He.
    destruct (slot_of_participants _ _ _ _ HL Hp) as (la & lp & Hn & Hps & Hnd).
    rewrite (unregister_on_slot _ _ _ _ _ _ e HL Hn Hps).
    destruct (remove_first e ps) as [ps'|] eqn:Hr; [|by apply remove_first_None in Hr].
    destruct (remove_first_NoDup _ _ _ Hnd Hr) as [Hnd' _].
    eexists _, ps'. split_and!; [done|done|by exists L; apply (layout_update _ _ _ _ _ _ HL Hn Hnd')|..];
      apply (participants_after_update _ _ _ _ _ _ HL Hn Hnd').
Qed.

(** ** A store to run the handlers on *)

(** [activities = {"Chess Club": {"participants": [...]}}], as the
    handlers expect it. *)
Definition demo_store : pystate :=
  mk_pystate
    (<[1%positive := ODict [(VStr "Chess Club", VRef 2%positive)]]>
      (<[2%positive := ODict [(VStr "participants", VRef 3%positive)]]>
        {[3%positive := OList [VStr "michael@mergington.edu"; VStr "daniel@mergington.edu"]]}))
    4%positive {["activities" := VRef 1%positive]}.

Definition demo_layout : layout := mk_layout 1%positive {["Chess Club" := (2%positive, 3%positive)]}.

Definition demo_ref : RefStore :=
  {["Chess Club" := ["michael@mergington.edu"; "daniel@mergington.edu"]]}.

Lemma demo_layout_ok : layout_ok demo_store demo_layout.
Proof.
  exists [(VStr "Chess Club", VRef 2%positive)]. split_and!; [done|done| | |].
  - intros n. simpl. rewrite list_elem_of_singleton. split.
    + intros [= ->]. rewrite lookup_singleton_eq. by eexists.
    + intros [x Hx]. by apply lookup_singleton_Some in Hx as [-> _].
  - intros n la lp Hn. simpl in Hn. apply lookup_singleton_Some in Hn as [<- [= <- <-]].
    split_and!; [reflexivity|by eexists|].
    exists ["michael@mergington.edu"; "daniel@mergington.edu"]. split; [reflexivity|decide_by_vm].
  - intros n1 n2 la1 lp1 la2 lp2 Hn1 Hn2. simpl in Hn1, Hn2.
    apply lookup_singleton_Some in Hn1 as [<- [= <- <-]].
    apply lookup_singleton_Some in Hn2 as [<- [= <- <-]]. done.
Qed.

Lemma demo_related : related demo_store demo_ref.
Proof.
  intros n. simpl. destruct (slots demo_layout !! n) as [[la lp]|] eqn:Hn.
  - pose proof Hn as Hn'. simpl in Hn'. apply lookup_singleton_Some in Hn' as [<- [= <- <-]].
    rewrite (py_participants_slot _ _ _ _ _ ["michael@mergington.edu"; "daniel@mergington.edu"]
               demo_layout_ok Hn) by reflexivity.
    reflexivity.
  - rewrite (py_participants_no_slot _ _ _ demo_layout_ok Hn).
    symmetry. unfold demo_ref. apply lookup_singleton_None. intros <-.
    simpl in Hn. by rewrite lookup_singleton_eq in Hn.
Qed.

(** ** The handler code against the reference store *)

(** C6: on an in-memory store of the shape the handler is
    written against, [unregister_from_activity] is simulated by the
    reference store: it fails with the error the spec prescribes or
    leads to a well-formed store with the participants the spec
    prescribes. *)
Theorem unregister_from_activity_refines s R n e :
  py_store_ok s → related s R →
  match run_store (unregister_from_activity n e) s, ref_unregister n e R with
  | inl e1, inl e2 => e1 = e2
  | inr s', inr R' => py_store_ok s' ∧ related s' R'
  | _, _ => False
  end.
Proof. intros Hok Hrel. exact (unregister_simulation py_store_ok s R n e Hok Hrel). Qed.

Lemma unregister_from_activity_refines_witness :
  match run_store (unregister_from_activity "Chess Club" "daniel@mergington.edu") demo_store,
        ref_unregister "Chess Club" "daniel@mergington.edu" demo_ref with
  | inl e1, inl e2 => e1 = e2
  | inr s', inr R' => py_store_ok s' ∧ related s' R'
  | _, _ => False
  end.
Proof.
  apply unregister_from_activity_refines; [exists demo_layout; apply demo_layout_ok|apply demo_related].
Defined.

(** C7: the same for the signup body [signup_checks]
    (lines 122-131) after the lookup of the activity in the store. *)
Theorem signup_checks_refines s R n e :
  py_store_ok s → related s R →
  match run_store (dict_signup n e) s, ref_signup n e R with
  | inl e1, inl e2 => e1 = e2
  | inr s', inr R' => py_store_ok s' ∧ related s' R'
  | _, _ => False
  end.
Proof. intros Hok Hrel. exact (signup_simulation py_store_ok s R n e Hok Hrel). Qed.

Lemma signup_checks_refines_witness :
  match run_store (dict_signup "Chess Club" "a@b.com") demo_store,
        ref_signup "Chess Club" "a@b.com" demo_ref with
  | inl e1, inl e2 => e1 = e2
  | inr s', inr R' => py_store_ok s' ∧ related s' R'
  | _, _ => False
  end.
Proof. apply signup_checks_refines; [exists demo_layout; apply demo_layout_ok|apply demo_related]. Defined.

(** C8: on such a store, signing up a new e-mail and then
    unregistering it gives back exactly the Python state of before:
    the e-mail is appended to the participants list object and removed
    from it, and nothing else is touched. *)
Theorem signup_unregister_restores s L n la lp ps e :
  layout_ok s L → slots L !! n = Some (la, lp) → heap s !! lp = Some (OList (VStr <$> ps)) →
  e ∉ ps →
  dict_signup n e s = (Ok (signed_up_reply n e), set_obj lp (OList (VStr <$> (ps ++ [e]))) s) ∧
  unregister_from_activity n e (dict_signup n e s).2 = (Ok (unregistered_reply n e), s).
Proof.
  intros HL Hn Hps He.
  rewrite (dict_signup_on_slot _ _ _ _ _ _ e HL Hn Hps), decide_False by done.
  split; [done|]. simpl.
  destruct (layout_slot _ _ _ _ _ HL Hn) as (_ & _ & ps0 & _ & _ & _ & _ & _ & _ & Hps0 & Hnd).
  rewrite Hps in Hps0. injection Hps0 as Hps0%(inj (fmap VStr)). subst ps0.
  pose proof (NoDup_snoc e ps Hnd He) as Hnd'.
  rewrite (unregister_on_slot _ _ _ _ _ (ps ++ [e]) e (layout_update _ _ _ _ _ _ HL Hn Hnd') Hn)
    by (simpl; by rewrite lookup_insert_eq).
  rewrite remove_first_snoc by done. do 2 f_equal.
  destruct s as [h nl g]. unfold set_obj. simpl in *. f_equal.
  rewrite insert_insert_eq. by apply insert_id.
Qed.

Lemma signup_unregister_restores_witness :
  dict_signup "Chess Club" "a@b.com" demo_store =
    (Ok (signed_up_reply "Chess Club" "a@b.com"),
     set_obj 3%positive (OList (VStr <$> (["michael@mergington.edu"; "daniel@mergington.edu"] ++ ["a@b.com"])))
       demo_store) ∧
  unregister_from_activity "Chess Club" "a@b.com" (dict_signup "Chess Club" "a@b.com" demo_store).2 =
    (Ok (unregistered_reply "Chess Club" "a@b.com"), demo_store).
Proof.
  apply (signup_unregister_restores _ demo_layout _ 2%positive);
    [apply demo_layout_ok|reflexivity|reflexivity|decide_by_vm].
Defined.

(** C9: the handlers keep the store well formed on every path,
    failures included: each participants list stays a list of distinct
    e-mails, and the lists of different activities stay distinct
    objects. *)
Theorem handlers_keep_store s n e :
  py_store_ok s →
  py_store_ok (unregister_from_activity n e s).2 ∧ py_store_ok (dict_signup n e s).2.
Proof.
  intros [L HL]. destruct (slots L !! n) as [[la lp]|] eqn:Hn.
  - destruct (layout_slot _ _ _ _ _ HL Hn) as (_ & _ & ps & _ & _ & _ & _ & _ & _ & Hps & Hnd).
    rewrite (unregister_on_slot _ _ _ _ _ _ e HL Hn Hps), (dict_signup_on_slot _ _ _ _ _ _ e HL Hn Hps).
    split.
    + destruct (remove_first e ps) as [ps'|] eqn:Hr; [|by exists L].
      exists L. apply (layout_update _ _ _ _ _ _ HL Hn). by eapply remove_first_NoDup.
    + destruct (decide (e ∈ ps)) as [He|He]; [by exists L|].
      exists L. apply (layout_update _ _ _ _ _ _ HL Hn). by apply NoDup_snoc.
  - unfold unregister_from_activity, dict_signup.
    rewrite !(lookup_activity_no_slot _ _ _ _ HL Hn). split; by exists L.
Qed.

Lemma handlers_keep_store_witness :
  py_store_ok (unregister_from_activity "Chess Club" "a@b.com" demo_store).2 ∧
  py_store_ok (dict_signup "Chess Club" "a@b.com" demo_store).2.
Proof. apply handlers_keep_store. exists demo_layout. apply demo_layout_ok. Defined.

End DictStore.
